(** * github-sync: repository reconciliation, hook registration and the
    webhook deploy sequence of [main.go], as a shallow embedding.

    The program talks to the outside world all the time (the file system,
    [git], [systemctl], the GitHub REST API).  Every such call is modelled
    as a question put to a [World]: a record of oracles that answer from the
    history of what the process has done so far.  The process itself is a
    computation in a small state-and-panic monad whose state is that
    history, a list of [Event]s that also records every answer received. *)

From Stdlib Require Import Ascii.
From stdpp Require Import base strings list gmap pretty.

Local Open Scope Z_scope.

(** ** The Go library functions the program calls *)

Module Go.

(** A string from the codes of its bytes. *)
Definition bytes (codes : list nat) : string :=
  fold_right (fun n s => String (ascii_of_nat n) s) EmptyString codes.

(** The white space of [unicode.IsSpace], each rune as the bytes of its
    UTF-8 encoding: tab, line feed, vertical tab, form feed, carriage
    return, space, U+0085, U+00A0, U+1680, U+2000 to U+200A, U+2028,
    U+2029, U+202F, U+205F and U+3000. *)
Definition spaces : list (list nat) :=
  [ [9]; [10]; [11]; [12]; [13]; [32];
    [194; 133]; [194; 160]; [225; 154; 128];
    [226; 128; 128]; [226; 128; 129]; [226; 128; 130]; [226; 128; 131];
    [226; 128; 132]; [226; 128; 133]; [226; 128; 134]; [226; 128; 135];
    [226; 128; 136]; [226; 128; 137]; [226; 128; 138];
    [226; 128; 168]; [226; 128; 169]; [226; 128; 175];
    [226; 129; 159]; [227; 128; 128] ]%nat.

(** [s] without the prefix [p], when it starts with it. *)
Fixpoint cutPrefix (p s : string) : option string :=
  match p, s with
  | EmptyString, _ => Some s
  | String a p', String b s' => if Ascii.eqb a b then cutPrefix p' s' else None
  | String _ _, EmptyString => None
  end.

(** [s] without its first rune, when that rune is white space; the runes
    are given by their bytes. *)
Fixpoint cutSpace (runes : list string) (s : string) : option string :=
  match runes with
  | [] => None
  | rune :: rest =>
      match cutPrefix rune s with
      | Some s' => Some s'
      | None => cutSpace rest s
      end
  end.

Fixpoint trimLeading (runes : list string) (fuel : nat) (s : string)
  : string :=
  match fuel with
  | O => s
  | S fuel' =>
      match cutSpace runes s with
      | Some s' => trimLeading runes fuel' s'
      | None => s
      end
  end.

Definition TrimLeft (s : string) : string :=
  trimLeading (map bytes spaces) (String.length s) s.

(** The same from the end: on the reversed string, with each rune's bytes
    reversed. *)
Definition TrimRight (s : string) : string :=
  String.rev (trimLeading (map (fun r => bytes (rev r)) spaces)
                (String.length s) (String.rev s)).

(** [strings.TrimSpace]: the string without its leading and trailing
    white space, as [unicode.IsSpace] defines it. *)
Definition TrimSpace (s : string) : string := TrimRight (TrimLeft s).

(** [strings.Split(s, sep)] for a separator of one byte: the pieces
    between the separators, [[s]] when there is none. *)
Fixpoint Split (s : string) (sep : ascii) : list string :=
  match s with
  | EmptyString => [EmptyString]
  | String c s' =>
      if Ascii.eqb c sep then EmptyString :: Split s' sep
      else match Split s' sep with
           | piece :: rest => String c piece :: rest
           | [] => [String c EmptyString]
           end
  end.

(** The line feed that [fmt.Println] and [fmt.Fprintln] end with. *)
Definition nl : string := String "010"%char EmptyString.

(** [fmt]'s [%d] verb on an integer. *)
Definition itoa (n : Z) : string := pretty n.

(** [time.Duration.Milliseconds]: nanoseconds to whole milliseconds,
    truncating as Go's integer division does. *)
Definition Milliseconds (d : Z) : Z := Z.quot d 1000000.

End Go.

(** ** Data model *)

(** A Go [error] as far as the program looks at it: its text, and whether
    [errors.Is(err, os.ErrNotExist)] holds of it. *)
Record error := { Error : string; IsNotExist : bool }.

Record SystemdService := {
  svc_Name : string;
  svc_Env : gmap string string;
  svc_Start : string;
  svc_User : string;
  svc_Dir : string
}.

(** [Service] is a pointer in the source: [None] is the nil pointer. *)
Record Repo := {
  ID : string;
  Branch : string;
  Install : string;
  Service : option SystemdService
}.

Record HookConfig := { URL : string; ContentType : string }.

(** [Config] is a pointer in the source: [None] is the nil pointer. *)
Record Hook := {
  hook_Name : string;
  Active : bool;
  Events : list string;
  Config : option HookConfig
}.

Record GithubRepository := { Name : string; FullName : string }.

(** [Repository] is a pointer in the source: [None] is the nil pointer. *)
Record WebhookRequest := { Repository : option GithubRepository }.

(** ** The outside world *)

(** An [exec.Cmd]: program, arguments, working directory ([""] when the
    source leaves [cmd.Dir] unset). *)
Record Cmd := { cmd_Name : string; cmd_Args : list string; cmd_Dir : string }.

(** Where the source sends the child's output. *)
Inductive Stdio :=
| CombinedOutput   (* cmd.CombinedOutput(): one buffer for both streams *)
| Buffers          (* cmd.Stdout and cmd.Stderr set to two bytes.Buffer *)
| Inherit.         (* cmd.Stdout = os.Stdout, cmd.Stderr = os.Stderr *)

(** What running a command produced: what it wrote, and the error of
    [cmd.Run] ([None] is a nil error, exit status 0). *)
Record ProcResult := {
  Stdout : string;
  Stderr : string;
  Combined : string;
  RunErr : option string
}.

(** [os.Stat]: a [FileInfo], of which only [IsDir] is read, or an error. *)
Inductive StatResult :=
| StatInfo (isDir : bool)
| StatErr (e : error).

Record Request := {
  Method : string;
  req_URL : string;
  Authorization : string;
  req_Body : option Hook    (* the value json.Marshal was applied to *)
}.

Record Response := { StatusCode : Z; resp_Body : string }.

Inductive Event :=
| EvStat (path : string) (r : StatResult)
| EvOpen (path : string) (r : string + string)
| EvExec (c : Cmd) (io : Stdio) (r : ProcResult)
| EvHttp (req : Request) (r : Response + string)
| EvPrint (s : string)
| EvListen (addr : string) (r : option string).

Definition Trace := list Event.

(** The oracles.  Each answers from the history so far, so a command may
    succeed once and fail the next time, and GitHub may remember a hook
    that an earlier request created.  The [json_*] fields stand for
    [encoding/json] decoding into the three target types, [inr] being the
    decoder's error text; [http_NewRequest] is the error, if any, that
    [http.NewRequest] finds in a method and URL; [map_range] is the order in which a [range] over
    the configuration map visits it. *)
Record World := {
  os_Stat : Trace -> string -> StatResult;
  os_Open : Trace -> string -> string + string;
  exec_Run : Trace -> Cmd -> Stdio -> ProcResult;
  http_Do : Trace -> Request -> Response + string;
  http_ListenAndServe : Trace -> string -> option string;
  time_Now : Trace -> Z;
  map_range : Trace -> gmap string Repo -> list (string * Repo);
  json_Repos : string -> gmap string Repo + string;
  json_Hooks : string -> list Hook + string;
  json_WebhookRequest : string -> WebhookRequest + string;
  http_NewRequest : string -> string -> option string;
  filepath_Join : string -> string -> string
}.

(** The process environment read through the [util] package. *)
Record Env := {
  GITHUB_TOKEN : string;
  EXTERNAL_URL : string;
  PORT : string;
  HomeDir : string
}.

(** ** The monad: a history, and panics *)

Inductive Res (A : Type) :=
| Val (a : A)
| Panic (msg : string).
Arguments Val {A} a.
Arguments Panic {A} msg.

Definition M (A : Type) : Type := Trace -> Res A * Trace.

Definition ret {A} (a : A) : M A := fun tr => (Val a, tr).

Definition bind {A B} (m : M A) (k : A -> M B) : M B :=
  fun tr =>
    match m tr with
    | (Val a, tr') => k a tr'
    | (Panic msg, tr') => (Panic msg, tr')
    end.

Definition panic {A} (msg : string) : M A := fun tr => (Panic msg, tr).

Declare Scope go_scope.
Delimit Scope go_scope with go.
Notation "x <- m ;; k" := (bind m (fun x => k))
  (at level 100, m at next level, right associativity) : go_scope.
Notation "m ;;; k" := (bind m (fun _ => k))
  (at level 100, right associativity) : go_scope.
Local Open Scope go_scope.

Definition nilDereference : string :=
  "runtime error: invalid memory address or nil pointer dereference".

(** Reading through a pointer: a nil pointer panics. *)
Definition deref {A} (p : option A) : M A :=
  match p with
  | Some a => ret a
  | None => panic nilDereference
  end.

Section Program.

Variable w : World.
Variable env : Env.

(** *** Primitive calls: ask the world, record the answer *)

Definition Stat (path : string) : M StatResult :=
  fun tr => let r := os_Stat w tr path in (Val r, tr ++ [EvStat path r]).

Definition Open (path : string) : M (string + string) :=
  fun tr => let r := os_Open w tr path in (Val r, tr ++ [EvOpen path r]).

Definition Run (c : Cmd) (io : Stdio) : M ProcResult :=
  fun tr => let r := exec_Run w tr c io in (Val r, tr ++ [EvExec c io r]).

Definition Do (req : Request) : M (Response + string) :=
  fun tr => let r := http_Do w tr req in (Val r, tr ++ [EvHttp req r]).

Definition ListenAndServe (addr : string) : M (option string) :=
  fun tr => let r := http_ListenAndServe w tr addr in
            (Val r, tr ++ [EvListen addr r]).

Definition Printf (s : string) : M unit :=
  fun tr => (Val tt, tr ++ [EvPrint s]).

Definition Println (s : string) : M unit := Printf (s +:+ Go.nl).

Definition Now : M Z := fun tr => (Val (time_Now w tr), tr).

Definition Join (a b : string) : string := filepath_Join w a b.

(** *** git *)

(** The command line that [clone] builds. *)
Definition cloneCmd (path gitURL branch : string) : Cmd :=
  let args := ["clone"] in
  let args := if negb (String.eqb branch "")
              then args ++ ["--branch"; branch; "--single-branch"]
              else args in
  let args := args ++ [gitURL; path] in
  {| cmd_Name := "git"; cmd_Args := args; cmd_Dir := "" |}.

Definition clone (path gitURL branch : string) : M (option string) :=
  r <- Run (cloneCmd path gitURL branch) CombinedOutput;;
  match RunErr r with
  | Some err =>
      ret (Some ("git clone failed: " +:+ err +:+ Go.nl +:+ Combined r))
  | None => ret None
  end.

(** The command of [getBranch]. *)
Definition revParse (path : string) : Cmd :=
  {| cmd_Name := "git";
     cmd_Args := ["-C"; path; "rev-parse"; "--abbrev-ref"; "HEAD"];
     cmd_Dir := "" |}.

Definition getBranch (path : string) : M (string + string) :=
  r <- Run (revParse path) Buffers;;
  match RunErr r with
  | Some _ => ret (inr (Stderr r))
  | None => ret (inl (Go.TrimSpace (Stdout r)))
  end.

(** The command of [pull]. *)
Definition gitPull (path : string) : Cmd :=
  {| cmd_Name := "git"; cmd_Args := ["pull"]; cmd_Dir := path |}.

Definition pull (path : string) : M (option string) :=
  r <- Run (gitPull path) CombinedOutput;;
  match RunErr r with
  | Some err => ret (Some (err +:+ ": " +:+ Go.TrimSpace (Combined r)))
  | None => ret None
  end.

(** *** Configuration *)

Definition readConfig (path : string) : M (gmap string Repo + string) :=
  f <- Open path;;
  match f with
  | inr err => ret (inr err)
  | inl contents => ret (json_Repos w contents)
  end.

(** *** Hook registration *)

Fixpoint includes (list : list string) (s : string) : bool :=
  match list with
  | [] => false
  | item :: rest => if String.eqb item s then true else includes rest s
  end.

(** The condition of the loop over the hooks.  [hook.Config.URL] is read
    first, whatever the other conjuncts are. *)
Definition hookMatches (hook : Hook) (webhookURL : string) : M bool :=
  c <- deref (Config hook);;
  ret (String.eqb (URL c) webhookURL && Active hook
       && includes (Events hook) "push" && String.eqb (ContentType c) "json").

Fixpoint alreadyRegistered (hooks : list Hook) (webhookURL : string)
  : M bool :=
  match hooks with
  | [] => ret false
  | hook :: rest =>
      b <- hookMatches hook webhookURL;;
      if b then ret true else alreadyRegistered rest webhookURL
  end.

(** The hook that [registerHook] marshals into the body of its POST. *)
Definition newHook (webhookURL : string) : Hook :=
  {| hook_Name := "web";
     Active := true;
     Events := ["push"];
     Config := Some {| URL := webhookURL; ContentType := "json" |} |}.

Definition NewRequest (method url : string) : M unit :=
  match http_NewRequest w method url with
  | Some err => panic err
  | None => ret tt
  end.

Definition registerHook (ghToken repoID webhookURL : string)
  : M (option string) :=
  let apiURL := "https://api.github.com/repos/" +:+ repoID +:+ "/hooks" in
  NewRequest "GET" apiURL;;;
  res <- Do {| Method := "GET"; req_URL := apiURL;
               Authorization := "token " +:+ ghToken; req_Body := None |};;
  match res with
  | inr err => ret (Some err)
  | inl res =>
      match json_Hooks w (resp_Body res) with
      | inr err => panic err
      | inl hooks =>
          found <- alreadyRegistered hooks webhookURL;;
          if found then ret None
          else
            NewRequest "POST" apiURL;;;
            res <- Do {| Method := "POST"; req_URL := apiURL;
                         Authorization := "token " +:+ ghToken;
                         req_Body := Some (newHook webhookURL) |};;
            match res with
            | inr err => ret (Some err)
            | inl res =>
                if negb (StatusCode res =? 201)
                then ret (Some (Go.itoa (StatusCode res) +:+ ": "
                                +:+ Go.TrimSpace (resp_Body res)))
                else ret None
            end
      end
  end.

(** *** The webhook handler *)

(** [http.Error(w, msg, code)]: the status, and the message on a line. *)
Definition http_Error (msg : string) (code : Z) : Response :=
  {| StatusCode := code; resp_Body := msg +:+ Go.nl |}.

(** A child started with the process's own stdout and stderr: only the
    error of [cmd.Run] comes back to the caller. *)
Definition runInherit (name : string) (args : list string) (dir : string)
  : M (option string) :=
  r <- Run {| cmd_Name := name; cmd_Args := args; cmd_Dir := dir |} Inherit;;
  ret (RunErr r).

(** One step of the handler: on an error, answer 500 with its text and
    return; otherwise go on. *)
Definition orFail (step : M (option string)) (k : M Response) : M Response :=
  e <- step;;
  match e with
  | Some err => ret (http_Error err 500)
  | None => k
  end.

Definition stopService (repo : Repo) (path : string) : M (option string) :=
  svc <- deref (Service repo);;
  if negb (String.eqb (svc_Name svc) "") then
    Println ("systemctl stop " +:+ svc_Name svc);;;
    runInherit "systemctl" ["stop"; svc_Name svc] path
  else ret None.

Definition install (repo : Repo) (path : string) : M (option string) :=
  if negb (String.eqb (Install repo) "") then
    Println (Install repo);;;
    runInherit "bash" ["-c"; Install repo] path
  else ret None.

Definition reloadSystemd (repo : Repo) (path : string) : M (option string) :=
  svc <- deref (Service repo);;
  if negb (String.eqb (svc_Name svc) "") then
    Println "systemctl daemon-reload";;;
    runInherit "systemctl" ["daemon-reload"] path
  else ret None.

Definition startService (repo : Repo) (path : string) : M (option string) :=
  svc <- deref (Service repo);;
  if negb (String.eqb (svc_Name svc) "") then
    Println ("systemctl start " +:+ svc_Name svc);;;
    runInherit "systemctl" ["start"; svc_Name svc] path
  else ret None.

(** The body of the 200 answer: [fmt.Fprintln(w, "ok in", ms, "ms")]. *)
Definition okBody (ms : Z) : string :=
  "ok in " +:+ Go.itoa ms +:+ " ms" +:+ Go.nl.

(** [body] is what the request carries; a panic leaves no answer. *)
Definition webhookHandler (body : string) : M Response :=
  start <- Now;;
  match json_WebhookRequest w body with
  | inr err => ret (http_Error err 400)
  | inl req =>
      repos <- readConfig (Join (HomeDir env) "repos.json");;
      match repos with
      | inr err => ret (http_Error err 500)
      | inl repos =>
          repository <- deref (Repository req);;
          let repoID := FullName repository in
          match repos !! repoID with
          | None =>
              ret (http_Error ("repo " +:+ repoID +:+ " not configured") 400)
          | Some repo =>
              let path := Join (HomeDir env) (Name repository) in
              orFail (pull path)
              (orFail (stopService repo path)
              (orFail (install repo path)
              (orFail (reloadSystemd repo path)
              (orFail (startService repo path)
              (now <- Now;;
               ret {| StatusCode := 200;
                      resp_Body := okBody (Go.Milliseconds (now - start)) |})))))
          end
      end
  end.

(** *** Start-up reconciliation *)

(** The body of the loop of [main] for one entry of the configuration.
    [true]: go on with the next entry; [false]: [main] has returned. *)
Definition reconcile (id : string) (repo : Repo) : M bool :=
  match Go.Split id "/"%char !! 1%nat with
  | None => panic "runtime error: index out of range [1] with length 1"
  | Some name =>
      let path := Join (HomeDir env) name in
      fi <- Stat path;;
      proceed <-
        match fi with
        | StatErr err =>
            if IsNotExist err then
              Println (Error err);;; ret false
            else
              let gitURL := "https://github.com/" +:+ id +:+ ".git" in
              err <- clone path gitURL (Branch repo);;
              match err with
              | Some err =>
                  Printf ("Error cloning " +:+ id +:+ ": " +:+ err +:+ Go.nl);;;
                  ret false
              | None => ret true
              end
        | StatInfo isDir =>
            if negb isDir then
              Println ("Error: " +:+ path +:+ " is file");;; ret false
            else
              b <- getBranch path;;
              match b with
              | inr err => Println ("Error: " +:+ err);;; ret false
              | inl branch =>
                  if negb (String.eqb branch (Branch repo)) then
                    Println ("Error: " +:+ ID repo
                             +:+ " is checked out to the wrong branch");;;
                    ret false
                  else
                    err <- pull path;;
                    match err with
                    | Some err =>
                        Printf ("Error pulling " +:+ id +:+ ": " +:+ err
                               +:+ Go.nl);;;
                        ret false
                    | None => ret true
                    end
              end
        end;;
      if proceed then
        err <- registerHook (GITHUB_TOKEN env) (ID repo) (EXTERNAL_URL env);;
        match err with
        | Some err => Println ("Error: " +:+ err);;; ret false
        | None => ret true
        end
      else ret false
  end.

Fixpoint reconcileAll (entries : list (string * Repo)) : M bool :=
  match entries with
  | [] => ret true
  | (id, repo) :: rest =>
      proceed <- reconcile id repo;;
      if proceed then reconcileAll rest else ret false
  end.

(** How [main] ends: it returns, or it stays in [http.ListenAndServe]. *)
Inductive MainResult := Returned | Serving.

Definition range (config : gmap string Repo) : M (list (string * Repo)) :=
  fun tr => (Val (map_range w tr config), tr).

(** The end of [main], once every entry is reconciled. *)
Definition serve : M MainResult :=
  err <- ListenAndServe (":" +:+ PORT env);;
  match err with
  | Some err => Println ("Error: " +:+ err);;; ret Returned
  | None => ret Serving
  end.

Definition main : M MainResult :=
  config <- readConfig (Join (HomeDir env) "repos.json");;
  match config with
  | inr err => Println ("Error: " +:+ err);;; ret Returned
  | inl config =>
      entries <- range config;;
      proceed <- reconcileAll entries;;
      if proceed then serve else ret Returned
  end.

End Program.

(** ** Reading a history *)

(** What a [fmt.Println] of [s] leaves in the history. *)
Definition printed (s : string) : Event := EvPrint (s +:+ Go.nl).

(** The commands a history started, in order. *)
Definition execs (tr : Trace) : list Cmd :=
  omap (fun e => match e with EvExec c _ _ => Some c | _ => None end) tr.

(** The HTTP requests a history sent, in order. *)
Definition requests (tr : Trace) : list Request :=
  omap (fun e => match e with EvHttp r _ => Some r | _ => None end) tr.

(** An event other than a command that ended with an error. *)
Definition succeeded (e : Event) : bool :=
  match e with
  | EvExec _ _ r => match RunErr r with None => true | Some _ => false end
  | _ => true
  end.

Definition systemctl (args : list string) (path : string) : Cmd :=
  {| cmd_Name := "systemctl"; cmd_Args := args; cmd_Dir := path |}.

Definition bash (script path : string) : Cmd :=
  {| cmd_Name := "bash"; cmd_Args := ["-c"; script]; cmd_Dir := path |}.

(** The hook that the registrar looks for: its URL is [url], it is active,
    it is subscribed to "push", and its content type is "json". *)
Definition isRegistration (url : string) (h : Hook) : Prop :=
  exists c, Config h = Some c /\ URL c = url /\ Active h = true
            /\ In "push" (Events h) /\ ContentType c = "json".

(** The two requests of [registerHook]. *)
Definition hooksURL (repoID : string) : string :=
  "https://api.github.com/repos/" +:+ repoID +:+ "/hooks".

Definition listHooks (ghToken repoID : string) : Request :=
  {| Method := "GET"; req_URL := hooksURL repoID;
     Authorization := "token " +:+ ghToken; req_Body := None |}.

Definition createHook (ghToken repoID webhookURL : string) : Request :=
  {| Method := "POST"; req_URL := hooksURL repoID;
     Authorization := "token " +:+ ghToken;
     req_Body := Some (newHook webhookURL) |}.

(** Is the command [systemctl daemon-reload] or a [systemctl start]? *)
Definition reloadOrStart (c : Cmd) : bool :=
  String.eqb (cmd_Name c) "systemctl"
  && match cmd_Args c with
     | verb :: _ => String.eqb verb "daemon-reload" || String.eqb verb "start"
     | [] => false
     end.

(** The five commands of a full deploy, in the order of the handler. *)
Definition deploySteps (path unit script : string) : list Cmd :=
  [ gitPull path;
    systemctl ["stop"; unit] path;
    bash script path;
    systemctl ["daemon-reload"] path;
    systemctl ["start"; unit] path ].

(** The commands of a deploy for a repository with a service, in the
    order of the handler: the service steps only for a named unit, the
    install step only for a non-empty command. *)
Definition deployPlan (repo : Repo) (svc : SystemdService) (path : string)
  : list Cmd :=
  let named := negb (String.eqb (svc_Name svc) "") in
  [gitPull path]
  ++ (if named then [systemctl ["stop"; svc_Name svc] path] else [])
  ++ (if negb (String.eqb (Install repo) "")
      then [bash (Install repo) path] else [])
  ++ (if named
      then [systemctl ["daemon-reload"] path;
            systemctl ["start"; svc_Name svc] path]
      else []).

(** The text the handler answers with when a command ends with the error
    [err]: [pull], which captures the output, adds it; the steps that write
    to the process's own streams give the error alone. *)
Definition failureText (io : Stdio) (r : ProcResult) (err : string) : string :=
  match io with
  | CombinedOutput => err +:+ ": " +:+ Go.TrimSpace (Combined r)
  | _ => err
  end.

(** The events a webhook delivery may leave: the read of the
    configuration, commands, and lines printed. *)
Definition handlerEvent (e : Event) : Prop :=
  match e with
  | EvOpen _ _ | EvExec _ _ _ | EvPrint _ => True
  | _ => False
  end.

(** [main], started with history [tr0], comes to the entry [(id, repo)] of
    the configuration with history [tr1]: the configuration was read, the
    entry is in the order of the [range], and every entry before it was
    reconciled. *)
Definition reaches (w : World) (env : Env) (tr0 : Trace)
    (id : string) (repo : Repo) (tr1 : Trace) : Prop :=
  exists contents config pre rest,
    os_Open w tr0 (Join w (HomeDir env) "repos.json") = inl contents
    /\ json_Repos w contents = inl config
    /\ map_range w (tr0 ++ [EvOpen (Join w (HomeDir env) "repos.json")
                               (inl contents)]) config
       = pre ++ (id, repo) :: rest
    /\ reconcileAll w env pre
         (tr0 ++ [EvOpen (Join w (HomeDir env) "repos.json") (inl contents)])
       = (Val true, tr1).

(** What is left of the loop body of [main] once the checkout is in
    place: the hook is registered, and an error of that is printed. *)
Definition thenRegister (w : World) (env : Env) (repo : Repo) : M bool :=
  bind (registerHook w (GITHUB_TOKEN env) (ID repo) (EXTERNAL_URL env))
    (fun err => match err with
                | Some err => bind (Println ("Error: " +:+ err))
                                (fun _ => ret false)
                | None => ret true
                end).

(** Does the byte occur in the string? *)
Fixpoint contains (sep : ascii) (s : string) : bool :=
  match s with
  | EmptyString => false
  | String c s' => Ascii.eqb c sep || contains sep s'
  end.

(** A computation that only adds events of one kind to the history. *)
Definition emits {A} (P : Event -> Prop) (m : M A) : Prop :=
  forall tr, exists new, snd (m tr) = tr ++ new /\ Forall P new.

Definition isHttp (e : Event) : Prop :=
  match e with EvHttp _ _ => True | _ => False end.

Definition httpOrPrint (e : Event) : Prop :=
  match e with EvHttp _ _ | EvPrint _ => True | _ => False end.

Definition notListen (e : Event) : Prop :=
  match e with EvListen _ _ => False | _ => True end.

(** A computation that only ever adds to the history. *)
Definition extends {A} (m : M A) : Prop :=
  forall tr, exists new, snd (m tr) = tr ++ new.

(** The configuration file that [main] and the handler both read. *)
Definition configPath (w : World) (env : Env) : string :=
  Join w (HomeDir env) "repos.json".

(** ** Example worlds *)

Module Example.

Definition env : Env :=
  {| GITHUB_TOKEN := "t0ken"; EXTERNAL_URL := "https://ci.example/hook";
     PORT := "2067"; HomeDir := "/home/u" |}.

Definition svc : SystemdService :=
  {| svc_Name := "svc"; svc_Env := ∅; svc_Start := "/home/u/b/b";
     svc_User := "u"; svc_Dir := "/home/u/b" |}.

Definition repo (service : option SystemdService) : Repo :=
  {| ID := "a/b"; Branch := "main"; Install := "make build";
     Service := service |}.

Definition quote (s : string) : string :=
  String "034"%char s +:+ String "034"%char EmptyString.

(** The push payload of GitHub, cut down to the two fields read. *)
Definition pushBody (name fullName : string) : string :=
  "{" +:+ quote "repository" +:+ ":{" +:+ quote "name" +:+ ":"
  +:+ quote name +:+ "," +:+ quote "full_name" +:+ ":" +:+ quote fullName
  +:+ "}}".

Definition decodeWebhookRequest (body : string) : WebhookRequest + string :=
  if String.eqb body "{}" then inl {| Repository := None |}
  else if String.eqb body (pushBody "b" "a/b")
  then inl {| Repository := Some {| Name := "b"; FullName := "a/b" |} |}
  else if String.eqb body (pushBody "d" "c/d")
  then inl {| Repository := Some {| Name := "d"; FullName := "c/d" |} |}
  else inr "invalid character in request body".

Definition decodeHooks (body : string) : list Hook + string :=
  if String.eqb body "[]" then inl []
  else if String.eqb body "[web]" then inl [newHook (EXTERNAL_URL env)]
  else inr "json: cannot unmarshal object into Go value of type []main.Hook".

(** Has the history a POST that GitHub answered with 201? *)
Definition created (tr : Trace) : bool :=
  existsb (fun e => match e with
                    | EvHttp r (inl res) =>
                        String.eqb (Method r) "POST" && (StatusCode res =? 201)
                    | _ => false
                    end) tr.

(** A GitHub that lists the hook once it has been created, and answers
    every POST with [post]. *)
Definition github (post : Response) (tr : Trace) (r : Request)
  : Response + string :=
  if String.eqb (Method r) "GET"
  then inl {| StatusCode := 200;
              resp_Body := if created tr then "[web]" else "[]" |}
  else inl post.

Definition ok (out : string) : ProcResult :=
  {| Stdout := out; Stderr := ""; Combined := out; RunErr := None |}.

Definition failure (out err : string) : ProcResult :=
  {| Stdout := ""; Stderr := out; Combined := out; RunErr := Some err |}.

(** A world with one configured repository, [a/b]; [stat] is what
    [os.Stat] finds, [run] how commands end, [service] the service of the
    repository, [post] the answer of GitHub to a hook creation. *)
Definition world (stat : StatResult) (run : Cmd -> ProcResult)
    (service : option SystemdService) (post : Response) : World :=
  {| os_Stat := fun _ _ => stat;
     os_Open := fun _ _ => inl "repos";
     exec_Run := fun _ c _ => run c;
     http_Do := github post;
     http_ListenAndServe := fun _ _ => None;
     time_Now := fun tr => 3000000 * Z.of_nat (length tr);
     map_range := fun _ m => map_to_list m;
     json_Repos := fun _ => inl {[ "a/b" := repo service ]};
     json_Hooks := decodeHooks;
     json_WebhookRequest := decodeWebhookRequest;
     http_NewRequest := fun _ _ => None;
     filepath_Join := fun a b => a +:+ "/" +:+ b |}.

Definition created201 : Response := {| StatusCode := 201; resp_Body := "{}" |}.

Definition unprocessable422 : Response :=
  {| StatusCode := 422; resp_Body := " Validation Failed" +:+ Go.nl |}.

(** Every command succeeds; the checkout is on [main]. *)
(** [os.Stat] on a path that does not exist. *)
Definition notExist : error :=
  {| Error := "stat /home/u/b: no such file or directory";
     IsNotExist := true |}.

(** [os.Stat] on a path below a directory that may not be searched. *)
Definition permissionDenied : error :=
  {| Error := "stat /home/u/b: permission denied"; IsNotExist := false |}.

Definition allGood (c : Cmd) : ProcResult := ok ("main" +:+ Go.nl).

(** Only the install command fails. *)
Definition installFails (c : Cmd) : ProcResult :=
  if String.eqb (cmd_Name c) "bash"
  then failure "make: *** No rule to make target" "exit status 2"
  else ok ("main" +:+ Go.nl).

(** The checkout is on [dev]. *)
Definition onDev (c : Cmd) : ProcResult := ok ("dev" +:+ Go.nl).

(** Only [git pull] fails. *)
Definition pullFails (c : Cmd) : ProcResult :=
  if String.eqb (cmd_Name c) "git" && bool_decide (cmd_Args c = ["pull"])
  then failure ("fatal: unable to access the remote" +:+ Go.nl)
         "exit status 1"
  else ok ("main" +:+ Go.nl).

(** A world like [world], with a chosen result of opening the
    configuration, a chosen single entry of the configuration, and a chosen
    result of [http.ListenAndServe]. *)
Definition worldOf (opened : string + string) (id : string) (r : Repo)
    (listen : option string) (stat : StatResult) (run : Cmd -> ProcResult)
    (post : Response) : World :=
  let base := world stat run (Service r) post in
  {| os_Stat := os_Stat base;
     os_Open := fun _ _ => opened;
     exec_Run := exec_Run base;
     http_Do := http_Do base;
     http_ListenAndServe := fun _ _ => listen;
     time_Now := time_Now base;
     map_range := map_range base;
     json_Repos := fun _ => inl {[ id := r ]};
     json_Hooks := json_Hooks base;
     json_WebhookRequest := json_WebhookRequest base;
     http_NewRequest := http_NewRequest base;
     filepath_Join := filepath_Join base |}.

(** Every command fails: the directory is not a git repository. *)
Definition notARepository (c : Cmd) : ProcResult :=
  failure ("fatal: not a git repository" +:+ Go.nl) "exit status 128".

(** A GitHub that already lists the hook. *)
Definition githubListing (tr : Trace) (r : Request) : Response + string :=
  inl {| StatusCode := 200; resp_Body := "[web]" |}.

(** A hook as a list may carry it, without its [config]. *)
Definition bareHook : Hook :=
  {| hook_Name := "web"; Active := true; Events := ["push"];
     Config := None |}.

(** A GitHub that refuses the token: 401 and an error object. *)
Definition githubUnauthorized (tr : Trace) (r : Request)
  : Response + string :=
  inl {| StatusCode := 401; resp_Body := "{message: Bad credentials}" |}.

(** A GitHub that lists the hook, and after it one without [config]. *)
Definition githubListingTwo (tr : Trace) (r : Request)
  : Response + string :=
  inl {| StatusCode := 200; resp_Body := "[web,bare]" |}.

(** A decoder that also knows the body of [githubListingTwo]. *)
Definition decodeHooksTwo (body : string) : list Hook + string :=
  if String.eqb body "[web,bare]"
  then inl [newHook (EXTERNAL_URL env); bareHook]
  else decodeHooks body.

(** A GitHub that cannot be reached. *)
Definition githubDown (tr : Trace) (r : Request) : Response + string :=
  inr "dial tcp: lookup api.github.com: no such host".

(** [w] with another GitHub. *)
Definition withGithub (w : World)
    (do : Trace -> Request -> Response + string) : World :=
  {| os_Stat := os_Stat w;
     os_Open := os_Open w;
     exec_Run := exec_Run w;
     http_Do := do;
     http_ListenAndServe := http_ListenAndServe w;
     time_Now := time_Now w;
     map_range := map_range w;
     json_Repos := json_Repos w;
     json_Hooks := json_Hooks w;
     json_WebhookRequest := json_WebhookRequest w;
     http_NewRequest := http_NewRequest w;
     filepath_Join := filepath_Join w |}.

(** [w] with another decoder of hook lists. *)
Definition withDecoder (w : World) (decode : string -> list Hook + string)
  : World :=
  {| os_Stat := os_Stat w;
     os_Open := os_Open w;
     exec_Run := exec_Run w;
     http_Do := http_Do w;
     http_ListenAndServe := http_ListenAndServe w;
     time_Now := time_Now w;
     map_range := map_range w;
     json_Repos := json_Repos w;
     json_Hooks := decode;
     json_WebhookRequest := json_WebhookRequest w;
     http_NewRequest := http_NewRequest w;
     filepath_Join := filepath_Join w |}.

(** A service entry without a unit name. *)
Definition unnamed : SystemdService :=
  {| svc_Name := ""; svc_Env := ∅; svc_Start := ""; svc_User := "";
     svc_Dir := "" |}.

End Example.

(** ** The handler, step by step *)

Section Handler.

Variable w : World.
Variable env : Env.

Lemma readConfig_eq path tr :
  readConfig w path tr =
    (Val match os_Open w tr path with
         | inl contents => json_Repos w contents
         | inr err => inr err
         end,
     tr ++ [EvOpen path (os_Open w tr path)]).
Proof.
  unfold readConfig, bind, Open, ret; cbn.
  destruct (os_Open w tr path); reflexivity.
Qed.

End Handler.

Ltac unfold_handler :=
  unfold webhookHandler, orFail, stopService, install, reloadSystemd,
    startService, runInherit, pull, Println, Printf, Run, Now, deref,
    bind, ret, panic in *.

(** Name the answer of the world to each command in the goal and split on
    whether the command ended with an error. *)
Ltac run_commands w :=
  repeat match goal with
  | |- context [exec_Run w ?t ?c ?io] =>
      let r := fresh "r" in
      let Hr := fresh "Hr" in
      set (r := exec_Run w t c io) in *;
      destruct (RunErr r) eqn:Hr; cbn
  end.

(** From [tr0 ++ new = tr0 ++ new'], the new events. *)
Ltac new_events :=
  match goal with
  | H : ?t = ?t ++ _ |- _ =>
      rewrite <- (app_nil_r t) in H at 1; apply app_inv_head in H
  | H : ?t ++ _ = ?t ++ _ |- _ => apply app_inv_head in H
  end.

(** Which of the listed events is the one at hand. *)
Ltac which_event :=
  repeat match goal with
  | H : _ \/ _ |- _ => destruct H as [H|H]
  | H : False |- _ => destruct H
  | H : In _ [] |- _ => destruct H
  | H : EvExec _ _ _ = EvExec _ _ _ |- _ =>
      injection H; clear H; intros; subst
  | H : _ = EvExec _ _ _ |- _ => discriminate H
  | H : cmd_Name _ = _ |- _ => cbn in H; discriminate H
  end.

(** Which of the listed requests is the one at hand. *)
Ltac which_request :=
  repeat match goal with
  | H : _ \/ _ |- _ => destruct H as [H|H]
  | H : False |- _ => destruct H
  | H : In _ [] |- _ => destruct H
  | H : EvHttp _ _ = EvHttp _ _ |- _ =>
      injection H; clear H; intros; subst
  | H : Method _ = _ |- _ => cbn in H; discriminate H
  end.

(** C8. A delivery that names a repository absent from the configuration
    just read is answered 400 "repo ... not configured"; reading the
    configuration file is the only thing the handler has done: no command
    was started. *)
Theorem webhookHandler_unknown_repository
    (w : World) (env : Env) (body : string) (tr0 : Trace)
    (req : WebhookRequest) (repository : GithubRepository)
    (contents : string) (repos : gmap string Repo) :
  json_WebhookRequest w body = inl req ->
  Repository req = Some repository ->
  os_Open w tr0 (configPath w env) = inl contents ->
  json_Repos w contents = inl repos ->
  repos !! FullName repository = None ->
  webhookHandler w env body tr0 =
    (Val (http_Error ("repo " +:+ FullName repository +:+ " not configured")
                     400),
     tr0 ++ [EvOpen (configPath w env) (inl contents)])
  /\ execs (tr0 ++ [EvOpen (configPath w env) (inl contents)]) = execs tr0.
Proof.
  intros Hdec Hrepo Hopen Hjson Hlook.
  split.
  - unfold webhookHandler, bind, Now, ret. rewrite Hdec.
    fold (configPath w env). rewrite readConfig_eq, Hopen, Hjson, Hrepo.
    cbn. rewrite Hlook. reflexivity.
  - unfold execs. rewrite omap_app. cbn. apply app_nil_r.
Qed.

Lemma webhookHandler_unknown_repository_witness :
  webhookHandler (Example.world (StatInfo true) Example.allGood
                    (Some Example.svc) Example.created201)
    Example.env (Example.pushBody "d" "c/d") []
  = (Val {| StatusCode := 400;
            resp_Body := "repo c/d not configured" +:+ Go.nl |},
     [EvOpen "/home/u/repos.json" (inl "repos")]).
Proof.
  refine (proj1 (webhookHandler_unknown_repository
    (Example.world (StatInfo true) Example.allGood
       (Some Example.svc) Example.created201)
    Example.env (Example.pushBody "d" "c/d") []
    {| Repository := Some {| Name := "d"; FullName := "c/d" |} |}
    {| Name := "d"; FullName := "c/d" |}
    "repos" {[ "a/b" := Example.repo (Some Example.svc) ]} _ _ _ _ _));
    reflexivity.
Defined.

(** C3. A delivery for a configured repository with a named service and an
    install command runs a prefix of: [git pull] with the checkout as
    working directory, [systemctl stop] of the unit, the install command
    under [bash -c] in the checkout, [systemctl daemon-reload],
    [systemctl start] of the unit.  When none of the commands run ends with
    an error it runs all five, in that order, and answers 200 with the body
    "ok in N ms" and a line feed, N being the elapsed milliseconds in
    decimal.  The checkout is the home directory joined with the
    repository name of the payload.  The commands and the body are written
    out in full. *)
Theorem webhookHandler_full_deploy
    (w : World) (env : Env) (body : string) (tr0 : Trace)
    (req : WebhookRequest) (repository : GithubRepository)
    (contents : string) (repos : gmap string Repo)
    (repo : Repo) (svc : SystemdService) :
  let config := filepath_Join w (HomeDir env) "repos.json" in
  json_WebhookRequest w body = inl req ->
  Repository req = Some repository ->
  os_Open w tr0 config = inl contents ->
  json_Repos w contents = inl repos ->
  repos !! FullName repository = Some repo ->
  Service repo = Some svc ->
  svc_Name svc <> "" ->
  Install repo <> "" ->
  let path := filepath_Join w (HomeDir env) (Name repository) in
  let steps :=
    [ {| cmd_Name := "git"; cmd_Args := ["pull"]; cmd_Dir := path |};
      {| cmd_Name := "systemctl"; cmd_Args := ["stop"; svc_Name svc];
         cmd_Dir := path |};
      {| cmd_Name := "bash"; cmd_Args := ["-c"; Install repo];
         cmd_Dir := path |};
      {| cmd_Name := "systemctl"; cmd_Args := ["daemon-reload"];
         cmd_Dir := path |};
      {| cmd_Name := "systemctl"; cmd_Args := ["start"; svc_Name svc];
         cmd_Dir := path |} ] in
  exists res new,
    webhookHandler w env body tr0
      = (res, tr0 ++ EvOpen config (inl contents) :: new)
    /\ execs new `prefix_of` steps
    /\ (forallb succeeded new = true ->
        let elapsed :=
          time_Now w (tr0 ++ EvOpen config (inl contents) :: new)
          - time_Now w tr0 in
        execs new = steps
        /\ res = Val {| StatusCode := 200;
                        resp_Body :=
                          "ok in " +:+ pretty (Z.quot elapsed 1000000)
                          +:+ " ms" +:+ String "010"%char EmptyString |}).
Proof.
  intros config Hdec Hrepo Hopen Hjson Hlook Hsvc Hname Hinst path steps.
  apply String.eqb_neq in Hname, Hinst.
  unfold webhookHandler, bind, Now, ret. rewrite Hdec.
  change (Join w (HomeDir env) "repos.json") with config.
  rewrite readConfig_eq, Hopen, Hjson, Hrepo.
  cbn. rewrite Hlook. change (Join w (HomeDir env) (Name repository)) with path.
  unfold_handler. rewrite Hsvc, Hname, Hinst. cbn.
  run_commands w; rewrite <- ?app_assoc; cbn [app];
    eexists _, _; (split; [reflexivity|]); cbn [execs omap];
    (split; [eexists; reflexivity|]); cbn;
    rewrite ?Hr, ?Hr0, ?Hr1, ?Hr2, ?Hr3; cbn; try discriminate.
  intros _; split; reflexivity.
Qed.

Lemma webhookHandler_full_deploy_witness :
  fst (webhookHandler (Example.world (StatInfo true) Example.allGood
                         (Some Example.svc) Example.created201)
         Example.env (Example.pushBody "b" "a/b") [])
  = Val {| StatusCode := 200;
           resp_Body := "ok in 30 ms" +:+ String "010"%char EmptyString |}
  /\ execs (snd (webhookHandler
                   (Example.world (StatInfo true) Example.allGood
                      (Some Example.svc) Example.created201)
                   Example.env (Example.pushBody "b" "a/b") []))
     = [ {| cmd_Name := "git"; cmd_Args := ["pull"];
            cmd_Dir := "/home/u/b" |};
         {| cmd_Name := "systemctl"; cmd_Args := ["stop"; "svc"];
            cmd_Dir := "/home/u/b" |};
         {| cmd_Name := "bash"; cmd_Args := ["-c"; "make build"];
            cmd_Dir := "/home/u/b" |};
         {| cmd_Name := "systemctl"; cmd_Args := ["daemon-reload"];
            cmd_Dir := "/home/u/b" |};
         {| cmd_Name := "systemctl"; cmd_Args := ["start"; "svc"];
            cmd_Dir := "/home/u/b" |} ].
Proof.
  destruct (webhookHandler_full_deploy
              (Example.world (StatInfo true) Example.allGood
                 (Some Example.svc) Example.created201)
              Example.env (Example.pushBody "b" "a/b") []
              {| Repository := Some {| Name := "b"; FullName := "a/b" |} |}
              {| Name := "b"; FullName := "a/b" |}
              "repos" {[ "a/b" := Example.repo (Some Example.svc) ]}
              (Example.repo (Some Example.svc)) Example.svc
              eq_refl eq_refl eq_refl eq_refl eq_refl eq_refl
              ltac:(discriminate) ltac:(discriminate))
    as (res & new & Hrun & _ & Hall).
  rewrite Hrun. cbn [fst snd app execs omap].
  assert (new = skipn 1 (snd (webhookHandler
                   (Example.world (StatInfo true) Example.allGood
                      (Some Example.svc) Example.created201)
                   Example.env (Example.pushBody "b" "a/b") []))) as Hnew.
  { rewrite Hrun. reflexivity. }
  destruct (Hall ltac:(rewrite Hnew; vm_compute; reflexivity))
    as [Hsteps Hres].
  split.
  - rewrite Hres, Hnew. vm_compute. reflexivity.
  - exact Hsteps.
Defined.

(** C10. A body that decodes without error to a request whose
    [Repository] is nil, as [{}] does, is never answered 400: once the
    configuration is read the handler reads [req.Repository.FullName]
    through the nil pointer and panics; when the configuration cannot be
    read the answer is 500. *)
Theorem webhookHandler_nil_repository
    (w : World) (env : Env) (body : string) (tr0 : Trace) :
  json_WebhookRequest w body = inl {| Repository := None |} ->
  let opened := os_Open w tr0 (configPath w env) in
  webhookHandler w env body tr0 =
    (match opened with
     | inr err => Val (http_Error err 500)
     | inl contents =>
         match json_Repos w contents with
         | inr err => Val (http_Error err 500)
         | inl _ => Panic nilDereference
         end
     end,
     tr0 ++ [EvOpen (configPath w env) opened])
  /\ (forall resp tr,
        webhookHandler w env body tr0 = (Val resp, tr) ->
        StatusCode resp <> 400).
Proof.
  intros Hdec opened.
  assert (webhookHandler w env body tr0 =
    (match opened with
     | inr err => Val (http_Error err 500)
     | inl contents =>
         match json_Repos w contents with
         | inr err => Val (http_Error err 500)
         | inl _ => Panic nilDereference
         end
     end,
     tr0 ++ [EvOpen (configPath w env) opened])) as Heq.
  { unfold webhookHandler, bind, Now, ret. rewrite Hdec.
    fold (configPath w env). rewrite readConfig_eq. fold opened.
    destruct opened as [contents|err]; [|reflexivity].
    destruct (json_Repos w contents); reflexivity. }
  split; [exact Heq|].
  intros resp tr. rewrite Heq.
  destruct opened as [contents|err].
  - destruct (json_Repos w contents); intros [= <- _]; discriminate.
  - intros [= <- _]; discriminate.
Qed.

Lemma webhookHandler_nil_repository_witness :
  webhookHandler (Example.world (StatInfo true) Example.allGood
                    (Some Example.svc) Example.created201)
    Example.env "{}" []
  = (Panic nilDereference, [EvOpen "/home/u/repos.json" (inl "repos")]).
Proof.
  apply (webhookHandler_nil_repository
           (Example.world (StatInfo true) Example.allGood
              (Some Example.svc) Example.created201)
           Example.env "{}" []).
  reflexivity.
Defined.

(** C2, at a repository without a service.  When the configured
    repository has no [service] (a nil pointer), the handler pulls and then
    panics on [repo.Service.Name]: the install command is never run and no
    answer is written.  (When the pull fails the answer is 500.) *)
Theorem webhookHandler_nil_service
    (w : World) (env : Env) (body : string) (tr0 : Trace)
    (req : WebhookRequest) (repository : GithubRepository)
    (contents : string) (repos : gmap string Repo) (repo : Repo) :
  json_WebhookRequest w body = inl req ->
  Repository req = Some repository ->
  os_Open w tr0 (configPath w env) = inl contents ->
  json_Repos w contents = inl repos ->
  repos !! FullName repository = Some repo ->
  Service repo = None ->
  let path := Join w (HomeDir env) (Name repository) in
  let tr1 := tr0 ++ [EvOpen (configPath w env) (inl contents)] in
  let r := exec_Run w tr1 (gitPull path) CombinedOutput in
  webhookHandler w env body tr0 =
    (match RunErr r with
     | None => Panic nilDereference
     | Some err =>
         Val (http_Error (err +:+ ": " +:+ Go.TrimSpace (Combined r)) 500)
     end,
     tr1 ++ [EvExec (gitPull path) CombinedOutput r]).
Proof.
  intros Hdec Hrepo Hopen Hjson Hlook Hsvc path tr1 r.
  unfold webhookHandler, bind, Now, ret. rewrite Hdec.
  fold (configPath w env). rewrite readConfig_eq, Hopen, Hjson, Hrepo.
  cbn. rewrite Hlook. fold path. fold tr1.
  unfold_handler. rewrite Hsvc. cbn. fold (gitPull path). fold r.
  destruct (RunErr r); reflexivity.
Qed.

Lemma webhookHandler_nil_service_witness :
  webhookHandler (Example.world (StatInfo true) Example.allGood None
                    Example.created201)
    Example.env (Example.pushBody "b" "a/b") []
  = (Panic nilDereference,
     [EvOpen "/home/u/repos.json" (inl "repos");
      EvExec (gitPull "/home/u/b") CombinedOutput
        (Example.ok ("main" +:+ Go.nl))]).
Proof.
  apply (webhookHandler_nil_service
           (Example.world (StatInfo true) Example.allGood None
              Example.created201)
           Example.env (Example.pushBody "b" "a/b") []
           {| Repository := Some {| Name := "b"; FullName := "a/b" |} |}
           {| Name := "b"; FullName := "a/b" |}
           "repos" {[ "a/b" := Example.repo None ]} (Example.repo None));
    reflexivity.
Defined.

(** The other half of C2: a service whose name is empty.  The handler runs
    a prefix of pull and install, never [systemctl], and when both succeed
    it answers 200. *)
Lemma webhookHandler_unnamed_service
    (w : World) (env : Env) (body : string) (tr0 : Trace)
    (req : WebhookRequest) (repository : GithubRepository)
    (contents : string) (repos : gmap string Repo)
    (repo : Repo) (svc : SystemdService) :
  json_WebhookRequest w body = inl req ->
  Repository req = Some repository ->
  os_Open w tr0 (configPath w env) = inl contents ->
  json_Repos w contents = inl repos ->
  repos !! FullName repository = Some repo ->
  Service repo = Some svc ->
  svc_Name svc = "" ->
  Install repo <> "" ->
  let path := Join w (HomeDir env) (Name repository) in
  exists res new,
    webhookHandler w env body tr0
      = (res, tr0 ++ EvOpen (configPath w env) (inl contents) :: new)
    /\ execs new `prefix_of` [gitPull path; bash (Install repo) path]
    /\ (forallb succeeded new = true ->
        execs new = [gitPull path; bash (Install repo) path]
        /\ exists ms, res = Val {| StatusCode := 200; resp_Body := okBody ms |}).
Proof.
  intros Hdec Hrepo Hopen Hjson Hlook Hsvc Hname Hinst path.
  apply String.eqb_neq in Hinst.
  unfold webhookHandler, bind, Now, ret. rewrite Hdec.
  fold (configPath w env). rewrite readConfig_eq, Hopen, Hjson, Hrepo.
  cbn. rewrite Hlook. fold path.
  unfold_handler. rewrite Hsvc, Hname, Hinst. cbn.
  run_commands w; rewrite <- ?app_assoc; cbn [app];
    eexists _, _; (split; [reflexivity|]); cbn [execs omap];
    (split; [eexists; reflexivity|]); cbn;
    rewrite ?Hr, ?Hr0; cbn; try discriminate.
  intros _; split; [reflexivity|eexists; reflexivity].
Qed.

(** C4, as the code has it.  Whenever a delivery runs the install command
    and the command ends with an error, the handler answers 500 with the
    text of that error (the error of [cmd.Run], such as "exit status 2"),
    the install command is the last thing it did, and it started neither
    [systemctl daemon-reload] nor [systemctl start]. *)
Theorem webhookHandler_install_failure
    (w : World) (env : Env) (body : string) (tr0 new : Trace)
    (res : Res Response) (c : Cmd) (r : ProcResult) (err : string) :
  webhookHandler w env body tr0 = (res, tr0 ++ new) ->
  In (EvExec c Inherit r) new ->
  cmd_Name c = "bash" ->
  RunErr r = Some err ->
  res = Val (http_Error err 500)
  /\ last new = Some (EvExec c Inherit r)
  /\ forallb (fun c => negb (reloadOrStart c)) (execs new) = true.
Proof.
  unfold webhookHandler, bind, Now, ret.
  destruct (json_WebhookRequest w body) as [req|e].
  2:{ intros [= <- Hnew]. new_events. subst new. intros []. }
  fold (configPath w env). rewrite readConfig_eq.
  destruct (os_Open w tr0 (configPath w env)) as [contents|e].
  2:{ intros [= <- Hnew]. new_events. subst new. cbn. intros; which_event. }
  destruct (json_Repos w contents) as [repos|e].
  2:{ intros [= <- Hnew]. new_events. subst new. cbn. intros; which_event. }
  destruct (Repository req) as [repository|]; cbn.
  2:{ intros [= <- Hnew]. new_events. subst new. cbn. intros; which_event. }
  destruct (repos !! FullName repository) as [repo|].
  2:{ intros [= <- Hnew]. new_events. subst new. cbn. intros; which_event. }
  unfold_handler.
  destruct (Service repo) as [svc|]; cbn;
    [destruct (String.eqb (svc_Name svc) ""); cbn|];
    destruct (String.eqb (Install repo) ""); cbn;
    run_commands w; rewrite <- ?app_assoc; cbn [app];
    intros [= <- Hnew]; new_events; subst new; cbn;
    intros Hin Hname Herr; which_event;
    repeat match goal with H : RunErr _ = _ |- _ => rewrite H in * end;
    try discriminate.
  all: split; [congruence|split; reflexivity].
Qed.

Lemma webhookHandler_install_failure_witness :
  fst (webhookHandler (Example.world (StatInfo true) Example.installFails
                         (Some Example.svc) Example.created201)
         Example.env (Example.pushBody "b" "a/b") [])
  = Val (http_Error "exit status 2" 500).
Proof.
  refine (proj1 (webhookHandler_install_failure
    (Example.world (StatInfo true) Example.installFails
       (Some Example.svc) Example.created201)
    Example.env (Example.pushBody "b" "a/b") []
    (snd (webhookHandler (Example.world (StatInfo true) Example.installFails
                            (Some Example.svc) Example.created201)
            Example.env (Example.pushBody "b" "a/b") []))
    _ (bash "make build" "/home/u/b")
    (Example.failure "make: *** No rule to make target" "exit status 2")
    "exit status 2" _ _ _ _)).
  - vm_compute. reflexivity.
  - vm_compute. tauto.
  - reflexivity.
  - reflexivity.
Defined.

(** C4 as the claim has it fails: here the install command writes
    "make: *** No rule to make target" and ends with exit status 2; the
    answer carries "exit status 2", not what the command wrote. *)
Lemma webhookHandler_install_output_not_reported :
  let w := Example.world (StatInfo true) Example.installFails
             (Some Example.svc) Example.created201 in
  let r := Example.failure "make: *** No rule to make target"
             "exit status 2" in
  exists res tr,
    webhookHandler w Example.env (Example.pushBody "b" "a/b") [] = (res, tr)
    /\ In (EvExec (bash "make build" "/home/u/b") Inherit r) tr
    /\ Combined r = "make: *** No rule to make target"
    /\ res = Val {| StatusCode := 500;
                    resp_Body := "exit status 2" +:+ Go.nl |}
    /\ res <> Val (http_Error (Combined r) 500)
    /\ res <> Val {| StatusCode := 500; resp_Body := Combined r |}.
Proof.
  cbv zeta. eexists _, _. split; [vm_compute; reflexivity|].
  split; [cbn; tauto|].
  split; [reflexivity|].
  split; [reflexivity|].
  split; discriminate.
Qed.

(** ** Start-up reconciliation *)

Section Reconciliation.

Variable w : World.
Variable env : Env.

Lemma reconcileAll_app pre rest tr tr1 :
  reconcileAll w env pre tr = (Val true, tr1) ->
  reconcileAll w env (pre ++ rest) tr = reconcileAll w env rest tr1.
Proof.
  revert tr. induction pre as [|[id repo] pre IH]; intros tr; cbn.
  - unfold ret. intros [= <-]. reflexivity.
  - unfold bind. destruct (reconcile w env id repo tr) as [[[]|msg] tr'];
      try discriminate.
    apply IH.
Qed.

Lemma main_eq tr0 contents config :
  os_Open w tr0 (configPath w env) = inl contents ->
  json_Repos w contents = inl config ->
  let trc := tr0 ++ [EvOpen (configPath w env) (inl contents)] in
  main w env tr0 =
    bind (reconcileAll w env (map_range w trc config))
      (fun proceed : bool => if proceed then serve w env else ret Returned)
      trc.
Proof.
  intros Hopen Hjson trc.
  unfold main. unfold bind at 1. fold (configPath w env).
  rewrite readConfig_eq, Hopen, Hjson. reflexivity.
Qed.

(** [main] returns, without listening, at the first entry of the
    configuration at which the loop body returns. *)
Lemma main_returns_at tr0 contents config pre id repo rest tr1 tr2 :
  os_Open w tr0 (configPath w env) = inl contents ->
  json_Repos w contents = inl config ->
  map_range w (tr0 ++ [EvOpen (configPath w env) (inl contents)]) config
    = pre ++ (id, repo) :: rest ->
  reconcileAll w env pre (tr0 ++ [EvOpen (configPath w env) (inl contents)])
    = (Val true, tr1) ->
  reconcile w env id repo tr1 = (Val false, tr2) ->
  main w env tr0 = (Val Returned, tr2).
Proof.
  intros Hopen Hjson Hrange Hpre Hbody.
  rewrite (main_eq _ _ _ Hopen Hjson). cbv zeta. rewrite Hrange.
  unfold bind at 1. rewrite (reconcileAll_app _ _ _ _ Hpre). cbn.
  unfold bind at 1. rewrite Hbody. reflexivity.
Qed.

Lemma reconcile_wrong_branch id repo name tr1 :
  Go.Split id "/"%char !! 1%nat = Some name ->
  let path := Join w (HomeDir env) name in
  os_Stat w tr1 path = StatInfo true ->
  let tr2 := tr1 ++ [EvStat path (StatInfo true)] in
  let r := exec_Run w tr2 (revParse path) Buffers in
  RunErr r = None ->
  Go.TrimSpace (Stdout r) <> Branch repo ->
  reconcile w env id repo tr1 =
    (Val false,
     tr1 ++ [EvStat path (StatInfo true);
             EvExec (revParse path) Buffers r;
             printed ("Error: " +:+ ID repo
                      +:+ " is checked out to the wrong branch")]).
Proof.
  intros Hname path Hstat tr2 r Hrun Hbranch.
  apply String.eqb_neq in Hbranch.
  unfold reconcile. rewrite Hname. fold path.
  unfold bind, Stat, getBranch, Run, Println, Printf, ret; cbn.
  rewrite Hstat. cbn. fold tr2. fold r. rewrite Hrun, Hbranch. cbn.
  unfold tr2. rewrite <- !app_assoc. reflexivity.
Qed.

Lemma reconcile_not_exist id repo name tr1 e :
  Go.Split id "/"%char !! 1%nat = Some name ->
  let path := Join w (HomeDir env) name in
  os_Stat w tr1 path = StatErr e ->
  IsNotExist e = true ->
  reconcile w env id repo tr1 =
    (Val false, tr1 ++ [EvStat path (StatErr e); printed (Error e)]).
Proof.
  intros Hname path Hstat Hne.
  unfold reconcile. rewrite Hname. fold path.
  unfold bind, Stat, Println, Printf, ret; cbn.
  rewrite Hstat, Hne. cbn. rewrite <- !app_assoc. reflexivity.
Qed.

End Reconciliation.

(** C5. When [main] comes to a configured repository whose path is a
    directory and whose checkout is on a branch other than the configured
    one, it prints "Error: <id> is checked out to the wrong branch" and
    returns: nothing is pulled for that repository, no later repository is
    looked at and the server is not started. *)
Theorem main_wrong_branch
    (w : World) (env : Env) (tr0 tr1 : Trace) (contents : string)
    (config : gmap string Repo) (pre rest : list (string * Repo))
    (id name : string) (repo : Repo) :
  os_Open w tr0 (configPath w env) = inl contents ->
  json_Repos w contents = inl config ->
  map_range w (tr0 ++ [EvOpen (configPath w env) (inl contents)]) config
    = pre ++ (id, repo) :: rest ->
  reconcileAll w env pre (tr0 ++ [EvOpen (configPath w env) (inl contents)])
    = (Val true, tr1) ->
  Go.Split id "/"%char !! 1%nat = Some name ->
  let path := Join w (HomeDir env) name in
  os_Stat w tr1 path = StatInfo true ->
  let r := exec_Run w (tr1 ++ [EvStat path (StatInfo true)]) (revParse path)
             Buffers in
  RunErr r = None ->
  Go.TrimSpace (Stdout r) <> Branch repo ->
  main w env tr0 =
    (Val Returned,
     tr1 ++ [EvStat path (StatInfo true);
             EvExec (revParse path) Buffers r;
             printed ("Error: " +:+ ID repo
                      +:+ " is checked out to the wrong branch")]).
Proof.
  intros Hopen Hjson Hrange Hpre Hname path Hstat r Hrun Hbranch.
  eapply main_returns_at; eauto.
  apply reconcile_wrong_branch; assumption.
Qed.

Lemma main_wrong_branch_witness :
  main (Example.world (StatInfo true) Example.onDev (Some Example.svc)
          Example.created201) Example.env []
  = (Val Returned,
     [EvOpen "/home/u/repos.json" (inl "repos");
      EvStat "/home/u/b" (StatInfo true);
      EvExec (revParse "/home/u/b") Buffers (Example.ok ("dev" +:+ Go.nl));
      printed "Error: a/b is checked out to the wrong branch"]).
Proof.
  apply (main_wrong_branch
           (Example.world (StatInfo true) Example.onDev (Some Example.svc)
              Example.created201) Example.env []
           [EvOpen "/home/u/repos.json" (inl "repos")] "repos"
           {[ "a/b" := Example.repo (Some Example.svc) ]} [] []
           "a/b" "b" (Example.repo (Some Example.svc)));
    try (vm_compute; reflexivity).
  vm_compute. discriminate.
Defined.

(** C1, at a path that does not exist.  When [os.Stat] fails with an error
    for which [errors.Is(err, os.ErrNotExist)] holds, [main] prints the
    error and returns: nothing is cloned and the server is not started. *)
Theorem main_not_exist_returns
    (w : World) (env : Env) (tr0 tr1 : Trace) (contents : string)
    (config : gmap string Repo) (pre rest : list (string * Repo))
    (id name : string) (repo : Repo) (e : error) :
  os_Open w tr0 (configPath w env) = inl contents ->
  json_Repos w contents = inl config ->
  map_range w (tr0 ++ [EvOpen (configPath w env) (inl contents)]) config
    = pre ++ (id, repo) :: rest ->
  reconcileAll w env pre (tr0 ++ [EvOpen (configPath w env) (inl contents)])
    = (Val true, tr1) ->
  Go.Split id "/"%char !! 1%nat = Some name ->
  let path := Join w (HomeDir env) name in
  os_Stat w tr1 path = StatErr e ->
  IsNotExist e = true ->
  main w env tr0 =
    (Val Returned, tr1 ++ [EvStat path (StatErr e); printed (Error e)]).
Proof.
  intros Hopen Hjson Hrange Hpre Hname path Hstat Hne.
  eapply main_returns_at; eauto.
  apply reconcile_not_exist; assumption.
Qed.

Lemma main_not_exist_returns_witness :
  main (Example.world (StatErr Example.notExist) Example.allGood
          (Some Example.svc) Example.created201) Example.env []
  = (Val Returned,
     [EvOpen "/home/u/repos.json" (inl "repos");
      EvStat "/home/u/b" (StatErr Example.notExist);
      printed "stat /home/u/b: no such file or directory"]).
Proof.
  apply (main_not_exist_returns
           (Example.world (StatErr Example.notExist) Example.allGood
              (Some Example.svc) Example.created201) Example.env []
           [EvOpen "/home/u/repos.json" (inl "repos")] "repos"
           {[ "a/b" := Example.repo (Some Example.svc) ]} [] []
           "a/b" "b" (Example.repo (Some Example.svc)) Example.notExist);
    vm_compute; reflexivity.
Defined.

(** ** A history is only ever extended *)

Lemma extends_ret {A} (a : A) : extends (ret a).
Proof. intros tr. exists []. cbn. symmetry. apply app_nil_r. Qed.

Lemma extends_panic {A} msg : extends (@panic A msg).
Proof. intros tr. exists []. cbn. symmetry. apply app_nil_r. Qed.

Lemma extends_bind {A B} (m : M A) (k : A -> M B) :
  extends m -> (forall a, extends (k a)) -> extends (bind m k).
Proof.
  intros Hm Hk tr. unfold bind.
  destruct (Hm tr) as [new Hnew]. destruct (m tr) as [[a|msg] tr']; cbn in *.
  - destruct (Hk a tr') as [new' Hnew']. exists (new ++ new').
    rewrite Hnew', Hnew. symmetry. apply app_assoc.
  - exists new. exact Hnew.
Qed.

Lemma extends_log {A} (f : Trace -> A) (e : Trace -> Event) :
  extends (fun tr => (Val (f tr), tr ++ [e tr])).
Proof. intros tr. exists [e tr]. reflexivity. Qed.

Lemma extends_read {A} (f : Trace -> A) :
  extends (fun tr => (Val (f tr), tr)).
Proof. intros tr. exists []. cbn. symmetry. apply app_nil_r. Qed.

Create HintDb extends.

Ltac extends_step :=
  first
    [ apply extends_ret
    | apply extends_panic
    | apply extends_bind
    | apply (extends_log (fun _ => tt))
    | apply extends_log
    | apply extends_read
    | match goal with
      | |- extends (match ?x with _ => _ end) => destruct x
      | |- forall _, _ => intro
      end ].

Ltac extends_auto := repeat extends_step.

Section Extends.

Variable w : World.
Variable env : Env.

Lemma extends_Run c io : extends (Run w c io).
Proof. unfold Run. apply (extends_log (fun tr => exec_Run w tr c io)
                            (fun tr => EvExec c io (exec_Run w tr c io))). Qed.

Lemma extends_Println s : extends (Println s).
Proof. apply (extends_log (fun _ => tt) (fun _ => printed s)). Qed.

Lemma extends_Printf s : extends (Printf s).
Proof. apply (extends_log (fun _ => tt) (fun _ => EvPrint s)). Qed.

Lemma extends_Do req : extends (Do w req).
Proof. unfold Do. apply (extends_log (fun tr => http_Do w tr req)
                           (fun tr => EvHttp req (http_Do w tr req))). Qed.

Lemma extends_Stat path : extends (Stat w path).
Proof. unfold Stat. apply (extends_log (fun tr => os_Stat w tr path)
                             (fun tr => EvStat path (os_Stat w tr path))). Qed.

Lemma extends_ListenAndServe addr : extends (ListenAndServe w addr).
Proof.
  unfold ListenAndServe.
  apply (extends_log (fun tr => http_ListenAndServe w tr addr)
           (fun tr => EvListen addr (http_ListenAndServe w tr addr))).
Qed.

Lemma extends_readConfig path : extends (readConfig w path).
Proof.
  intros tr. rewrite readConfig_eq. eexists. reflexivity.
Qed.

#[local] Hint Resolve extends_Run extends_Println extends_Printf extends_Do
  extends_Stat extends_ListenAndServe extends_readConfig : extends.

Ltac extends_go :=
  repeat first [ solve [auto with extends] | extends_step ].

Lemma extends_alreadyRegistered hooks url :
  extends (alreadyRegistered hooks url).
Proof.
  induction hooks as [|hook hooks IH]; cbn; [apply extends_ret|].
  unfold hookMatches, deref. extends_go.
Qed.

Lemma extends_registerHook token repoID url :
  extends (registerHook w token repoID url).
Proof.
  unfold registerHook, NewRequest.
  pose proof extends_alreadyRegistered. extends_go.
Qed.

Lemma extends_clone path url branch : extends (clone w path url branch).
Proof. unfold clone. extends_go. Qed.

Lemma extends_pull path : extends (pull w path).
Proof. unfold pull. extends_go. Qed.

Lemma extends_getBranch path : extends (getBranch w path).
Proof. unfold getBranch. extends_go. Qed.

Lemma extends_reconcile id repo : extends (reconcile w env id repo).
Proof.
  unfold reconcile.
  pose proof extends_registerHook. pose proof extends_clone.
  pose proof extends_pull. pose proof extends_getBranch.
  extends_go.
Qed.

Lemma extends_reconcileAll entries : extends (reconcileAll w env entries).
Proof.
  induction entries as [|[id repo] entries IH]; cbn; [apply extends_ret|].
  pose proof extends_reconcile. extends_go.
Qed.

End Extends.

Lemma bind_after {A B} (m : M A) (k : A -> M B) tr res tr' :
  m tr = (res, tr') ->
  (forall a, extends (k a)) ->
  exists new, snd (bind m k tr) = tr' ++ new.
Proof.
  intros Hm Hk. unfold bind. rewrite Hm. destruct res as [a|msg].
  - apply Hk.
  - exists []. cbn. symmetry. apply app_nil_r.
Qed.

Section Continues.

Variable w : World.
Variable env : Env.

Lemma extends_serve : extends (serve w env).
Proof.
  unfold serve. pose proof (extends_ListenAndServe w).
  pose proof extends_Println. extends_auto; auto.
Qed.

(** Whatever the loop body did at an entry that [main] reaches stays in
    the history of [main]. *)
Lemma main_continues tr0 contents config pre id repo rest tr1 res tr2 :
  os_Open w tr0 (configPath w env) = inl contents ->
  json_Repos w contents = inl config ->
  map_range w (tr0 ++ [EvOpen (configPath w env) (inl contents)]) config
    = pre ++ (id, repo) :: rest ->
  reconcileAll w env pre (tr0 ++ [EvOpen (configPath w env) (inl contents)])
    = (Val true, tr1) ->
  reconcile w env id repo tr1 = (res, tr2) ->
  exists later, snd (main w env tr0) = tr2 ++ later.
Proof.
  intros Hopen Hjson Hrange Hpre Hbody.
  rewrite (main_eq _ _ _ _ _ Hopen Hjson). cbv zeta. rewrite Hrange.
  set (k := fun proceed : bool =>
              if proceed then reconcileAll w env rest else ret false).
  destruct (bind_after (reconcile w env id repo) k tr1 res tr2 Hbody)
    as [new Hnew].
  { intros []; [apply extends_reconcileAll|apply extends_ret]. }
  destruct (bind (reconcile w env id repo) k tr1) as [res' tr3] eqn:Hall.
  cbn in Hnew. subst tr3.
  edestruct (bind_after
               (reconcileAll w env (pre ++ (id, repo) :: rest))
               (fun proceed : bool =>
                  if proceed then serve w env else ret Returned))
    as [new' Hnew'].
  { rewrite (reconcileAll_app _ _ _ _ _ _ Hpre). exact Hall. }
  { intros []; [apply extends_serve|apply extends_ret]. }
  exists (new ++ new'). rewrite Hnew'. symmetry. apply app_assoc.
Qed.

Lemma reconcile_stat_error id repo name tr1 e :
  Go.Split id "/"%char !! 1%nat = Some name ->
  let path := Join w (HomeDir env) name in
  os_Stat w tr1 path = StatErr e ->
  IsNotExist e = false ->
  let c := cloneCmd path ("https://github.com/" +:+ id +:+ ".git")
             (Branch repo) in
  let r := exec_Run w (tr1 ++ [EvStat path (StatErr e)]) c CombinedOutput in
  exists res later,
    reconcile w env id repo tr1
    = (res, tr1 ++ EvStat path (StatErr e) :: EvExec c CombinedOutput r
                :: later).
Proof.
  intros Hname path Hstat Hne c r.
  unfold reconcile. rewrite Hname. fold path.
  unfold bind at 1, Stat at 1. rewrite Hstat, Hne.
  unfold bind at 1 2, clone, Run. fold c. subst r. unfold bind at 1.
  destruct (RunErr (exec_Run w _ c CombinedOutput)) as [err|]; cbn.
  - eexists _, [_]. rewrite <- !app_assoc. reflexivity.
  - unfold bind.
    match goal with
    | |- context [registerHook w ?t ?i ?u ?tr] =>
        destruct (extends_registerHook w t i u tr) as [new Hnew];
        destruct (registerHook w t i u tr) as [[[err|]|msg] tr4]
    end; cbn in *; subst tr4; eexists _, _; rewrite <- !app_assoc;
      cbn [app]; reflexivity.
Qed.

End Continues.

(** C6, at a stat error other than "not exist".  When [os.Stat] fails with
    an error for which [errors.Is(err, os.ErrNotExist)] does not hold
    (permission denied, say), [main] does not stop there: the next thing it
    does is to run [git clone] into the path. *)
Theorem main_stat_error_clones
    (w : World) (env : Env) (tr0 tr1 : Trace) (contents : string)
    (config : gmap string Repo) (pre rest : list (string * Repo))
    (id name : string) (repo : Repo) (e : error) :
  os_Open w tr0 (configPath w env) = inl contents ->
  json_Repos w contents = inl config ->
  map_range w (tr0 ++ [EvOpen (configPath w env) (inl contents)]) config
    = pre ++ (id, repo) :: rest ->
  reconcileAll w env pre (tr0 ++ [EvOpen (configPath w env) (inl contents)])
    = (Val true, tr1) ->
  Go.Split id "/"%char !! 1%nat = Some name ->
  let path := Join w (HomeDir env) name in
  os_Stat w tr1 path = StatErr e ->
  IsNotExist e = false ->
  let c := cloneCmd path ("https://github.com/" +:+ id +:+ ".git")
             (Branch repo) in
  let r := exec_Run w (tr1 ++ [EvStat path (StatErr e)]) c CombinedOutput in
  exists later,
    snd (main w env tr0)
    = tr1 ++ EvStat path (StatErr e) :: EvExec c CombinedOutput r :: later.
Proof.
  intros Hopen Hjson Hrange Hpre Hname path Hstat Hne c r.
  destruct (reconcile_stat_error w env id repo name tr1 e Hname Hstat Hne)
    as (res & later & Hbody).
  destruct (main_continues w env _ _ _ _ _ _ _ _ _ _
              Hopen Hjson Hrange Hpre Hbody) as [later' Hmain].
  exists (later ++ later'). rewrite Hmain. rewrite <- app_assoc. reflexivity.
Qed.

Lemma main_stat_error_clones_witness :
  exists later,
    snd (main (Example.world (StatErr Example.permissionDenied)
                 Example.allGood (Some Example.svc) Example.created201)
           Example.env [])
    = [EvOpen "/home/u/repos.json" (inl "repos")]
      ++ EvStat "/home/u/b" (StatErr Example.permissionDenied)
      :: EvExec (cloneCmd "/home/u/b" "https://github.com/a/b.git" "main")
           CombinedOutput (Example.ok ("main" +:+ Go.nl))
      :: later.
Proof.
  apply (main_stat_error_clones
           (Example.world (StatErr Example.permissionDenied) Example.allGood
              (Some Example.svc) Example.created201) Example.env []
           [EvOpen "/home/u/repos.json" (inl "repos")] "repos"
           {[ "a/b" := Example.repo (Some Example.svc) ]} [] []
           "a/b" "b" (Example.repo (Some Example.svc))
           Example.permissionDenied);
    vm_compute; reflexivity.
Defined.

(** ** Hook registration *)

Lemma includes_In (l : list string) (s : string) :
  includes l s = true <-> In s l.
Proof.
  induction l as [|item l IH]; cbn; [split; [discriminate|tauto]|].
  destruct (String.eqb item s) eqn:Heq.
  - apply String.eqb_eq in Heq. tauto.
  - apply String.eqb_neq in Heq. rewrite IH. split; [tauto|].
    intros [H|H]; [contradiction|assumption].
Qed.

Lemma hookMatches_spec (hook : Hook) (c : HookConfig) (url : string) tr :
  Config hook = Some c ->
  exists b, hookMatches hook url tr = (Val b, tr)
            /\ (b = true <-> isRegistration url hook).
Proof.
  intros Hc. unfold hookMatches, bind, deref. rewrite Hc. cbn.
  eexists; split; [reflexivity|].
  rewrite !andb_true_iff, !String.eqb_eq, includes_In.
  unfold isRegistration. split.
  - intros [[[? ?] ?] ?]. exists c. tauto.
  - intros (c' & Hc' & ? & ? & ? & ?). rewrite Hc in Hc'.
    injection Hc' as <-. tauto.
Qed.

Lemma alreadyRegistered_trace hooks url tr :
  snd (alreadyRegistered hooks url tr) = tr.
Proof.
  induction hooks as [|hook hooks IH]; cbn; [reflexivity|].
  unfold bind, hookMatches, deref.
  destruct (Config hook); cbn; [|reflexivity].
  match goal with |- context [if ?b then _ else _] => destruct b end;
    [reflexivity|apply IH].
Qed.

Lemma alreadyRegistered_spec hooks url tr :
  Forall (fun h => Config h <> None) hooks ->
  exists b, alreadyRegistered hooks url tr = (Val b, tr)
            /\ (b = true <-> Exists (isRegistration url) hooks).
Proof.
  induction 1 as [|hook hooks Hc _ IH]; cbn.
  - exists false. split; [reflexivity|]. rewrite Exists_nil.
    split; [discriminate|tauto].
  - destruct (Config hook) as [c|] eqn:Hcfg; [|contradiction].
    destruct (hookMatches_spec hook c url tr Hcfg) as (b & Hb & Hiff).
    unfold bind. rewrite Hb. destruct b.
    + exists true. split; [reflexivity|]. rewrite Exists_cons. tauto.
    + destruct IH as (b' & Hb' & Hiff'). exists b'. split; [exact Hb'|].
      rewrite Exists_cons, Hiff'. split; [tauto|].
      intros [H|H]; [|assumption]. apply Hiff in H. discriminate.
Qed.

Lemma isRegistration_newHook url : isRegistration url (newHook url).
Proof.
  eexists. cbn. split; [reflexivity|]. repeat split. left. reflexivity.
Qed.

Section Register.

Variable w : World.
Variables ghToken repoID webhookURL : string.

Hypothesis NewRequest_ok :
  forall method, http_NewRequest w method (hooksURL repoID) = None.

Lemma registerHook_listed tr0 res hooks :
  http_Do w tr0 (listHooks ghToken repoID) = inl res ->
  json_Hooks w (resp_Body res) = inl hooks ->
  Forall (fun h => Config h <> None) hooks ->
  Exists (isRegistration webhookURL) hooks ->
  registerHook w ghToken repoID webhookURL tr0
  = (Val None, tr0 ++ [EvHttp (listHooks ghToken repoID) (inl res)]).
Proof.
  intros Hget Hdec Hcfg Hex.
  unfold registerHook, NewRequest. fold (hooksURL repoID).
  rewrite !NewRequest_ok. fold (listHooks ghToken repoID).
  unfold bind at 1. unfold ret at 1. unfold bind at 1, Do at 1.
  rewrite Hget, Hdec.
  set (tr1 := tr0 ++ _).
  destruct (alreadyRegistered_spec hooks webhookURL tr1 Hcfg)
    as (b & Hb & Hiff).
  unfold bind at 1. rewrite Hb. apply Hiff in Hex. subst b. reflexivity.
Qed.

Lemma registerHook_not_listed tr0 res hooks :
  http_Do w tr0 (listHooks ghToken repoID) = inl res ->
  json_Hooks w (resp_Body res) = inl hooks ->
  Forall (fun h => Config h <> None) hooks ->
  ~ Exists (isRegistration webhookURL) hooks ->
  let tr1 := tr0 ++ [EvHttp (listHooks ghToken repoID) (inl res)] in
  let post := createHook ghToken repoID webhookURL in
  exists err,
    registerHook w ghToken repoID webhookURL tr0
    = (Val err, tr1 ++ [EvHttp post (http_Do w tr1 post)]).
Proof.
  intros Hget Hdec Hcfg Hex tr1 post.
  unfold registerHook, NewRequest. fold (hooksURL repoID).
  rewrite !NewRequest_ok. fold (listHooks ghToken repoID).
  fold (createHook ghToken repoID webhookURL). fold post.
  unfold bind at 1. unfold ret at 1. unfold bind at 1, Do at 1.
  rewrite Hget, Hdec. fold tr1.
  destruct (alreadyRegistered_spec hooks webhookURL tr1 Hcfg)
    as (b & Hb & Hiff).
  unfold bind at 1. rewrite Hb.
  destruct b; [destruct Hex; apply Hiff; reflexivity|].
  unfold bind at 1. unfold ret at 1. unfold bind at 1, Do at 1.
  destruct (http_Do w tr1 post) as [res2|err]; [|eexists; reflexivity].
  destruct (negb (StatusCode res2 =? 201)); eexists; reflexivity.
Qed.

(** Why the hooks are taken with their [config]: a hook without one,
    met before any registration, stops [registerHook] with a panic. *)
Lemma registerHook_nil_config tr0 res hook hooks :
  http_Do w tr0 (listHooks ghToken repoID) = inl res ->
  json_Hooks w (resp_Body res) = inl (hook :: hooks) ->
  Config hook = None ->
  registerHook w ghToken repoID webhookURL tr0
  = (Panic nilDereference,
     tr0 ++ [EvHttp (listHooks ghToken repoID) (inl res)]).
Proof.
  intros Hget Hdec Hcfg.
  unfold registerHook, NewRequest. fold (hooksURL repoID).
  rewrite !NewRequest_ok. fold (listHooks ghToken repoID).
  unfold bind at 1. unfold ret at 1. unfold bind at 1, Do at 1.
  rewrite Hget, Hdec. cbn. unfold bind, hookMatches, deref.
  rewrite Hcfg. reflexivity.
Qed.

End Register.

(** C7. Given the list of hooks that GitHub returns (each with its
    [config]): when one of them has the configured URL, is active, is
    subscribed to "push" and has content type "json", [registerHook]
    returns nil after the one GET, without any create request; otherwise it
    sends, after the GET, exactly one POST, whose hook is named "web", is
    active, is subscribed to "push", and has content type "json" and the
    configured URL.  A later call with the same arguments, GitHub then
    listing that hook, returns nil after its GET and creates nothing. *)
Theorem registerHook_idempotent
    (w : World) (ghToken repoID webhookURL : string) (tr0 : Trace)
    (res : Response) (hooks : list Hook) :
  (forall method, http_NewRequest w method (hooksURL repoID) = None) ->
  http_Do w tr0 (listHooks ghToken repoID) = inl res ->
  json_Hooks w (resp_Body res) = inl hooks ->
  Forall (fun h => Config h <> None) hooks ->
  let get := listHooks ghToken repoID in
  let post := createHook ghToken repoID webhookURL in
  let tr1 := tr0 ++ [EvHttp get (inl res)] in
  (Exists (isRegistration webhookURL) hooks ->
   registerHook w ghToken repoID webhookURL tr0 = (Val None, tr1))
  /\ (~ Exists (isRegistration webhookURL) hooks ->
      (exists err,
         registerHook w ghToken repoID webhookURL tr0
         = (Val err, tr1 ++ [EvHttp post (http_Do w tr1 post)]))
      /\ req_Body post
         = Some {| hook_Name := "web"; Active := true; Events := ["push"];
                   Config := Some {| URL := webhookURL;
                                     ContentType := "json" |} |}
      /\ forall tr2 res2 hooks2,
           http_Do w tr2 get = inl res2 ->
           json_Hooks w (resp_Body res2) = inl hooks2 ->
           Forall (fun h => Config h <> None) hooks2 ->
           In (newHook webhookURL) hooks2 ->
           registerHook w ghToken repoID webhookURL tr2
           = (Val None, tr2 ++ [EvHttp get (inl res2)])).
Proof.
  intros Hnew Hget Hdec Hcfg get post tr1. split.
  - intros Hex. eapply registerHook_listed; eauto.
  - intros Hex. split; [eapply registerHook_not_listed; eauto|].
    split; [reflexivity|].
    intros tr2 res2 hooks2 Hget2 Hdec2 Hcfg2 Hin.
    eapply registerHook_listed; eauto.
    apply Exists_exists. exists (newHook webhookURL).
    split; [apply list_elem_of_In; exact Hin|apply isRegistration_newHook].
Qed.

Lemma registerHook_idempotent_witness :
  let w := Example.world (StatInfo true) Example.allGood (Some Example.svc)
             Example.created201 in
  let url := EXTERNAL_URL Example.env in
  let tr2 := snd (registerHook w "t0ken" "a/b" url []) in
  requests tr2 = [listHooks "t0ken" "a/b"; createHook "t0ken" "a/b" url]
  /\ registerHook w "t0ken" "a/b" url tr2
     = (Val None,
        tr2 ++ [EvHttp (listHooks "t0ken" "a/b")
                  (inl {| StatusCode := 200; resp_Body := "[web]" |})]).
Proof.
  cbv zeta. split; [vm_compute; reflexivity|].
  refine (proj2 (proj2 (proj2 (registerHook_idempotent
    (Example.world (StatInfo true) Example.allGood (Some Example.svc)
       Example.created201)
    "t0ken" "a/b" (EXTERNAL_URL Example.env) []
    {| StatusCode := 200; resp_Body := "[]" |} [] _ _ _ _) _))
    _ {| StatusCode := 200; resp_Body := "[web]" |}
    [newHook (EXTERNAL_URL Example.env)] _ _ _ _).
  - reflexivity.
  - reflexivity.
  - reflexivity.
  - constructor.
  - rewrite Exists_nil. tauto.
  - vm_compute. reflexivity.
  - reflexivity.
  - repeat constructor. discriminate.
  - left. reflexivity.
Defined.

(** C9. Whenever [registerHook] has sent its POST and got a response, it
    returns nil when the status is 201, and otherwise an error made of the
    status code, ": ", and the body with the white space around it
    removed. *)
Theorem registerHook_create_status
    (w : World) (ghToken repoID webhookURL : string) (tr0 new : Trace)
    (res : Res (option string)) (req : Request) (resp : Response) :
  registerHook w ghToken repoID webhookURL tr0 = (res, tr0 ++ new) ->
  In (EvHttp req (inl resp)) new ->
  Method req = "POST" ->
  res = Val (if StatusCode resp =? 201 then None
             else Some (Go.itoa (StatusCode resp) +:+ ": "
                        +:+ Go.TrimSpace (resp_Body resp))).
Proof.
  unfold registerHook, NewRequest.
  destruct (http_NewRequest w "GET" _).
  { unfold bind, panic. intros [= <- Hnew]. new_events. subst new.
    intros []. }
  unfold bind at 1. unfold ret at 1. unfold bind at 1, Do at 1.
  set (tr1 := tr0 ++ _).
  destruct (http_Do w tr0 _) as [res1|err].
  2:{ unfold tr1. intros [= <- Hnew]. new_events. subst new. cbn.
      intros; which_request. }
  destruct (json_Hooks w (resp_Body res1)) as [hooks|err].
  2:{ unfold tr1. intros [= <- Hnew]. new_events. subst new. cbn.
      intros; which_request. }
  unfold bind at 1.
  pose proof (alreadyRegistered_trace hooks webhookURL tr1) as Htr.
  destruct (alreadyRegistered hooks webhookURL tr1) as [[[]|msg] tr1'];
    cbn in Htr; subst tr1'.
  1,3: unfold tr1; intros [= <- Hnew]; new_events; subst new; cbn;
       intros; which_request.
  destruct (http_NewRequest w "POST" _).
  { unfold bind, panic, tr1. intros [= <- Hnew]. new_events. subst new.
    cbn. intros; which_request. }
  unfold bind at 1. unfold ret at 1. unfold bind at 1, Do at 1.
  destruct (http_Do w tr1 _) as [res2|err].
  2:{ unfold tr1. rewrite <- app_assoc. intros [= <- Hnew]. new_events.
      subst new. cbn. intros; which_request; discriminate. }
  unfold tr1. rewrite <- app_assoc.
  destruct (StatusCode res2 =? 201) eqn:Hcode; cbn;
    intros [= <- Hnew]; new_events; subst new; cbn;
    intros; which_request; rewrite Hcode; reflexivity.
Qed.

Lemma registerHook_create_status_witness :
  fst (registerHook (Example.world (StatInfo true) Example.allGood
                       (Some Example.svc) Example.unprocessable422)
         "t0ken" "a/b" (EXTERNAL_URL Example.env) [])
  = Val (Some "422: Validation Failed").
Proof.
  refine (registerHook_create_status
    (Example.world (StatInfo true) Example.allGood (Some Example.svc)
       Example.unprocessable422)
    "t0ken" "a/b" (EXTERNAL_URL Example.env) []
    (snd (registerHook (Example.world (StatInfo true) Example.allGood
                          (Some Example.svc) Example.unprocessable422)
            "t0ken" "a/b" (EXTERNAL_URL Example.env) []))
    _ (createHook "t0ken" "a/b" (EXTERNAL_URL Example.env))
    Example.unprocessable422 _ _ _).
  - vm_compute. reflexivity.
  - vm_compute. tauto.
  - reflexivity.
Defined.

(** ** More on the webhook handler *)

(** Every way through the handler: the goal is left as an implication from
    the run's result and new events, both known. *)
Ltac handler_paths w env body tr0 :=
  unfold webhookHandler, bind, Now, ret;
  destruct (json_WebhookRequest w body) as [?req|?e];
  [ fold (configPath w env); rewrite readConfig_eq;
    destruct (os_Open w tr0 (configPath w env)) as [?contents|?e];
    [ match goal with
      | |- context [json_Repos w ?c] =>
          destruct (json_Repos w c) as [?repos|?e]
      end;
      [ match goal with
        | |- context [Repository ?r] =>
            destruct (Repository r) as [?repository|]
        end; cbn;
        [ match goal with
          | |- context [?m !! FullName ?r] =>
              destruct (m !! FullName r) as [?repo|]
          end;
          [ unfold_handler;
            match goal with
            | |- context [Service ?r] =>
                destruct (Service r) as [?svc|]; cbn;
                [ match goal with
                  | |- context [String.eqb (svc_Name ?s) ""] =>
                      destruct (String.eqb (svc_Name s) "") eqn:?Hnamed
                  end; cbn
                | ];
                destruct (String.eqb (Install r) "") eqn:?Hinstall; cbn
            end;
            run_commands w
          | ]
        | ]
      | ]
    | ]
  | ];
  rewrite <- ?app_assoc; cbn [app];
  intros [= <- Hnew]; new_events; subst; cbn.

Ltac rewrite_results :=
  repeat match goal with H : RunErr _ = _ |- _ => rewrite H in * end.

(** X1. What an answer of the handler tells about the run. *)
Theorem webhookHandler_status
    (w : World) (env : Env) (body : string) (tr0 new : Trace)
    (resp : Response) :
  webhookHandler w env body tr0 = (Val resp, tr0 ++ new) ->
  (StatusCode resp = 200 /\ forallb succeeded new = true
   /\ (exists path, hd_error (execs new) = Some (gitPull path))
   /\ exists ms, resp_Body resp = okBody ms)
  \/ (StatusCode resp = 400 /\ execs new = [])
  \/ (StatusCode resp = 500
      /\ (execs new = []
          \/ exists c io r err,
               last new = Some (EvExec c io r) /\ RunErr r = Some err
               /\ resp_Body resp = failureText io r err +:+ Go.nl)).
Proof.
  revert resp.
  assert (forall res, webhookHandler w env body tr0 = (res, tr0 ++ new) ->
    forall resp, res = Val resp ->
    (StatusCode resp = 200 /\ forallb succeeded new = true
     /\ (exists path, hd_error (execs new) = Some (gitPull path))
     /\ exists ms, resp_Body resp = okBody ms)
    \/ (StatusCode resp = 400 /\ execs new = [])
    \/ (StatusCode resp = 500
        /\ (execs new = []
            \/ exists c io r err,
                 last new = Some (EvExec c io r) /\ RunErr r = Some err
                 /\ resp_Body resp = failureText io r err +:+ Go.nl)))
    as Hall.
  { intros res. handler_paths w env body tr0; intros resp [= <-]; cbn;
      rewrite_results; cbn.
    all: try (right; left; split; reflexivity).
    all: try (right; right; split; [reflexivity|left; reflexivity]).
    all: try (right; right; split; [reflexivity|right];
              eexists _, _, _, _; split; [reflexivity|];
              split; [eassumption|reflexivity]).
    all: left; split; [reflexivity|]; split; [reflexivity|];
         split; eexists; reflexivity. }
  intros resp H. exact (Hall _ H _ eq_refl).
Qed.

Lemma webhookHandler_status_witness :
  (200 = 200 /\ true = true
   /\ (exists path, Some (gitPull "/home/u/b") = Some (gitPull path))
   /\ exists ms, okBody 30 = okBody ms)
  \/ (200 = 400 /\ deploySteps "/home/u/b" "svc" "make build" = [])
  \/ (200 = 500
      /\ (deploySteps "/home/u/b" "svc" "make build" = []
          \/ exists c io r err,
               Some (EvExec (systemctl ["start"; "svc"] "/home/u/b") Inherit
                       (Example.ok ("main" +:+ Go.nl)))
               = Some (EvExec c io r) /\ RunErr r = Some err
               /\ okBody 30 = failureText io r err +:+ Go.nl)).
Proof.
  exact (webhookHandler_status
    (Example.world (StatInfo true) Example.allGood
       (Some Example.svc) Example.created201)
    Example.env (Example.pushBody "b" "a/b") []
    (snd (webhookHandler (Example.world (StatInfo true) Example.allGood
                            (Some Example.svc) Example.created201)
            Example.env (Example.pushBody "b" "a/b") []))
    {| StatusCode := 200; resp_Body := okBody 30 |}
    eq_refl).
Defined.

(** X2. The handler stops at the first command that ends with an error:
    that command is the last thing it did, and the answer is 500 with the
    error text (for [git pull], followed by the captured output). *)
Theorem webhookHandler_short_circuit
    (w : World) (env : Env) (body : string) (tr0 new : Trace)
    (res : Res Response) (c : Cmd) (io : Stdio) (r : ProcResult)
    (err : string) :
  webhookHandler w env body tr0 = (res, tr0 ++ new) ->
  In (EvExec c io r) new ->
  RunErr r = Some err ->
  res = Val (http_Error (failureText io r err) 500)
  /\ last new = Some (EvExec c io r).
Proof.
  handler_paths w env body tr0; intros Hin Herr; which_event;
    try congruence.
  all: split; [|reflexivity].
  all: match goal with
       | H1 : RunErr ?r = Some ?s, H2 : RunErr ?r = Some ?e |- _ =>
           rewrite H1 in H2; injection H2 as ->
       end; reflexivity.
Qed.

Lemma webhookHandler_short_circuit_witness :
  fst (webhookHandler (Example.world (StatInfo true) Example.pullFails
                         (Some Example.svc) Example.created201)
         Example.env (Example.pushBody "b" "a/b") [])
  = Val (http_Error "exit status 1: fatal: unable to access the remote" 500).
Proof.
  refine (proj1 (webhookHandler_short_circuit
    (Example.world (StatInfo true) Example.pullFails
       (Some Example.svc) Example.created201)
    Example.env (Example.pushBody "b" "a/b") []
    (snd (webhookHandler (Example.world (StatInfo true) Example.pullFails
                            (Some Example.svc) Example.created201)
            Example.env (Example.pushBody "b" "a/b") []))
    _ (gitPull "/home/u/b") CombinedOutput
    (Example.failure ("fatal: unable to access the remote" +:+ Go.nl)
       "exit status 1")
    "exit status 1" _ _ _)).
  - vm_compute. reflexivity.
  - vm_compute. tauto.
  - reflexivity.
Defined.

(** X3. For a configured repository with a service, the commands of a
    delivery are a prefix of the plan: pull; stop, for a named unit; the
    install command, when there is one; daemon-reload and start, for a named
    unit.  When none ends with an error the whole plan is run and the
    answer is 200. *)
Theorem webhookHandler_deploy_plan
    (w : World) (env : Env) (body : string) (tr0 : Trace)
    (req : WebhookRequest) (repository : GithubRepository)
    (contents : string) (repos : gmap string Repo)
    (repo : Repo) (svc : SystemdService) :
  json_WebhookRequest w body = inl req ->
  Repository req = Some repository ->
  os_Open w tr0 (configPath w env) = inl contents ->
  json_Repos w contents = inl repos ->
  repos !! FullName repository = Some repo ->
  Service repo = Some svc ->
  let plan := deployPlan repo svc (Join w (HomeDir env) (Name repository)) in
  exists res new,
    webhookHandler w env body tr0
      = (res, tr0 ++ EvOpen (configPath w env) (inl contents) :: new)
    /\ execs new `prefix_of` plan
    /\ (forallb succeeded new = true ->
        execs new = plan
        /\ exists ms, res = Val {| StatusCode := 200;
                                   resp_Body := okBody ms |}).
Proof.
  intros Hdec Hrepo Hopen Hjson Hlook Hsvc plan. subst plan.
  unfold webhookHandler, bind, Now, ret. rewrite Hdec.
  fold (configPath w env). rewrite readConfig_eq, Hopen, Hjson, Hrepo.
  cbn. rewrite Hlook.
  unfold_handler. rewrite Hsvc. unfold deployPlan.
  destruct (String.eqb (svc_Name svc) ""),
           (String.eqb (Install repo) ""); cbn.
  all: run_commands w; rewrite <- ?app_assoc; cbn [app];
    eexists _, _; (split; [reflexivity|]); cbn [execs omap];
    (split; [eexists; reflexivity|]); cbn;
    rewrite_results; cbn; try discriminate.
  all: intros _; split; [reflexivity|eexists; reflexivity].
Qed.

Lemma webhookHandler_deploy_plan_witness :
  exists res new,
    webhookHandler (Example.world (StatInfo true) Example.allGood
                      (Some Example.unnamed) Example.created201)
      Example.env (Example.pushBody "b" "a/b") []
      = (res, [] ++ EvOpen "/home/u/repos.json" (inl "repos") :: new)
    /\ execs new `prefix_of` [gitPull "/home/u/b"; bash "make build" "/home/u/b"]
    /\ (forallb succeeded new = true ->
        execs new = [gitPull "/home/u/b"; bash "make build" "/home/u/b"]
        /\ exists ms, res = Val {| StatusCode := 200;
                                   resp_Body := okBody ms |}).
Proof.
  apply (webhookHandler_deploy_plan
           (Example.world (StatInfo true) Example.allGood
              (Some Example.unnamed) Example.created201)
           Example.env (Example.pushBody "b" "a/b") []
           {| Repository := Some {| Name := "b"; FullName := "a/b" |} |}
           {| Name := "b"; FullName := "a/b" |}
           "repos" {[ "a/b" := Example.repo (Some Example.unnamed) ]}
           (Example.repo (Some Example.unnamed)) Example.unnamed);
    reflexivity.
Defined.

(** X4. A delivery only reads the configuration, runs commands and
    prints; it sends no HTTP request, stats nothing, and the only [git]
    command it runs is [git pull]: the branch of the checkout is not looked
    at again. *)
Theorem webhookHandler_events
    (w : World) (env : Env) (body : string) (tr0 new : Trace)
    (res : Res Response) :
  webhookHandler w env body tr0 = (res, tr0 ++ new) ->
  Forall handlerEvent new
  /\ requests new = []
  /\ (forall c, In c (execs new) -> cmd_Name c = "git" ->
      cmd_Args c = ["pull"]).
Proof.
  handler_paths w env body tr0.
  all: split; [repeat constructor|]; split; [reflexivity|].
  all: intros c Hin Hgit; which_event; subst; try discriminate;
       reflexivity.
Qed.

Lemma webhookHandler_events_witness :
  Forall handlerEvent
    (snd (webhookHandler (Example.world (StatInfo true) Example.allGood
                            (Some Example.svc) Example.created201)
            Example.env (Example.pushBody "b" "a/b") []))
  /\ requests
       (snd (webhookHandler (Example.world (StatInfo true) Example.allGood
                               (Some Example.svc) Example.created201)
               Example.env (Example.pushBody "b" "a/b") [])) = [].
Proof.
  pose proof (webhookHandler_events
    (Example.world (StatInfo true) Example.allGood
       (Some Example.svc) Example.created201)
    Example.env (Example.pushBody "b" "a/b") []
    (snd (webhookHandler (Example.world (StatInfo true) Example.allGood
                            (Some Example.svc) Example.created201)
            Example.env (Example.pushBody "b" "a/b") []))
    _ eq_refl) as (H1 & H2 & _).
  exact (conj H1 H2).
Defined.

(** ** More on the start-up reconciliation *)

Section MoreReconciliation.

Variable w : World.
Variable env : Env.

Lemma main_returns_when tr0 id repo tr1 tr2 :
  reaches w env tr0 id repo tr1 ->
  reconcile w env id repo tr1 = (Val false, tr2) ->
  main w env tr0 = (Val Returned, tr2).
Proof.
  intros (contents & config & pre & rest & Hopen & Hjson & Hrange & Hpre).
  eapply main_returns_at; eauto.
Qed.

Lemma main_panics_when tr0 id repo tr1 msg tr2 :
  reaches w env tr0 id repo tr1 ->
  reconcile w env id repo tr1 = (Panic msg, tr2) ->
  main w env tr0 = (Panic msg, tr2).
Proof.
  intros (contents & config & pre & rest & Hopen & Hjson & Hrange & Hpre)
    Hbody.
  fold (configPath w env) in *.
  rewrite (main_eq _ _ _ _ _ Hopen Hjson). cbv zeta. rewrite Hrange.
  unfold bind at 1. rewrite (reconcileAll_app _ _ _ _ _ _ Hpre). cbn.
  unfold bind at 1. rewrite Hbody. reflexivity.
Qed.

Lemma reconcile_is_file id repo name tr1 :
  Go.Split id "/"%char !! 1%nat = Some name ->
  let path := Join w (HomeDir env) name in
  os_Stat w tr1 path = StatInfo false ->
  reconcile w env id repo tr1 =
    (Val false,
     tr1 ++ [EvStat path (StatInfo false);
             printed ("Error: " +:+ path +:+ " is file")]).
Proof.
  intros Hname path Hstat.
  unfold reconcile. rewrite Hname. fold path.
  unfold bind, Stat, Println, Printf, ret; cbn.
  rewrite Hstat. cbn. rewrite <- !app_assoc. reflexivity.
Qed.

Lemma reconcile_branch_error id repo name tr1 err :
  Go.Split id "/"%char !! 1%nat = Some name ->
  let path := Join w (HomeDir env) name in
  os_Stat w tr1 path = StatInfo true ->
  let r := exec_Run w (tr1 ++ [EvStat path (StatInfo true)]) (revParse path)
             Buffers in
  RunErr r = Some err ->
  reconcile w env id repo tr1 =
    (Val false,
     tr1 ++ [EvStat path (StatInfo true);
             EvExec (revParse path) Buffers r;
             printed ("Error: " +:+ Stderr r)]).
Proof.
  intros Hname path Hstat r Hrun.
  unfold reconcile. rewrite Hname. fold path.
  unfold bind, Stat, getBranch, Run, Println, Printf, ret; cbn.
  rewrite Hstat. cbn. fold r. rewrite Hrun. cbn.
  rewrite <- !app_assoc. reflexivity.
Qed.

Lemma reconcile_pull_failure id repo name tr1 err :
  Go.Split id "/"%char !! 1%nat = Some name ->
  let path := Join w (HomeDir env) name in
  os_Stat w tr1 path = StatInfo true ->
  let tr2 := tr1 ++ [EvStat path (StatInfo true)] in
  let r := exec_Run w tr2 (revParse path) Buffers in
  RunErr r = None ->
  Go.TrimSpace (Stdout r) = Branch repo ->
  let tr3 := tr2 ++ [EvExec (revParse path) Buffers r] in
  let p := exec_Run w tr3 (gitPull path) CombinedOutput in
  RunErr p = Some err ->
  reconcile w env id repo tr1 =
    (Val false,
     tr3 ++ [EvExec (gitPull path) CombinedOutput p;
             EvPrint ("Error pulling " +:+ id +:+ ": "
                      +:+ (err +:+ ": " +:+ Go.TrimSpace (Combined p))
                      +:+ Go.nl)]).
Proof.
  intros Hname path Hstat tr2 r Hrun Hbranch tr3 p Hpull.
  apply String.eqb_eq in Hbranch.
  unfold reconcile. rewrite Hname. fold path.
  unfold bind, Stat, getBranch, pull, Run, Println, Printf, ret; cbn.
  rewrite Hstat. cbn. fold tr2. fold r. rewrite Hrun, Hbranch. cbn.
  fold tr3. fold p. rewrite Hpull. cbn.
  rewrite <- !app_assoc. reflexivity.
Qed.

Lemma reconcile_clone_failure id repo name tr1 e err :
  Go.Split id "/"%char !! 1%nat = Some name ->
  let path := Join w (HomeDir env) name in
  os_Stat w tr1 path = StatErr e ->
  IsNotExist e = false ->
  let c := cloneCmd path ("https://github.com/" +:+ id +:+ ".git")
             (Branch repo) in
  let r := exec_Run w (tr1 ++ [EvStat path (StatErr e)]) c CombinedOutput in
  RunErr r = Some err ->
  reconcile w env id repo tr1 =
    (Val false,
     tr1 ++ [EvStat path (StatErr e);
             EvExec c CombinedOutput r;
             EvPrint ("Error cloning " +:+ id +:+ ": "
                      +:+ ("git clone failed: " +:+ err +:+ Go.nl
                           +:+ Combined r)
                      +:+ Go.nl)]).
Proof.
  intros Hname path Hstat Hne c r Hrun.
  unfold reconcile. rewrite Hname. fold path.
  unfold bind, Stat, clone, Run, Println, Printf, ret; cbn.
  rewrite Hstat, Hne. cbn. fold c. fold r. rewrite Hrun. cbn.
  rewrite <- !app_assoc. reflexivity.
Qed.

Lemma bind_val {A B} (m : M A) (k : A -> M B) tr a tr' :
  m tr = (Val a, tr') -> bind m k tr = k a tr'.
Proof. intros H. unfold bind. rewrite H. reflexivity. Qed.

Lemma reconcile_valid id repo name tr1 :
  Go.Split id "/"%char !! 1%nat = Some name ->
  let path := Join w (HomeDir env) name in
  os_Stat w tr1 path = StatInfo true ->
  let tr2 := tr1 ++ [EvStat path (StatInfo true)] in
  let r := exec_Run w tr2 (revParse path) Buffers in
  RunErr r = None ->
  Go.TrimSpace (Stdout r) = Branch repo ->
  let tr3 := tr2 ++ [EvExec (revParse path) Buffers r] in
  let p := exec_Run w tr3 (gitPull path) CombinedOutput in
  RunErr p = None ->
  reconcile w env id repo tr1 =
    thenRegister w env repo
      (tr3 ++ [EvExec (gitPull path) CombinedOutput p]).
Proof.
  intros Hname path Hstat tr2 r Hrun Hbranch tr3 p Hpull.
  apply String.eqb_eq in Hbranch.
  unfold reconcile. rewrite Hname. fold path.
  assert (Stat w path tr1 = (Val (StatInfo true), tr2)) as H1.
  { unfold Stat. rewrite Hstat. reflexivity. }
  rewrite (bind_val _ _ _ _ _ H1). cbn [negb].
  match goal with
  | |- bind ?m ?k ?tr = _ =>
      assert (m tr = (Val true, tr3 ++ [EvExec (gitPull path)
                                          CombinedOutput p])) as H2
  end.
  { unfold getBranch, pull, Run, Println, Printf. unfold bind, ret. cbn.
    fold tr2. fold r. rewrite Hrun, Hbranch. cbn. fold tr3. fold p.
    rewrite Hpull. reflexivity. }
  rewrite (bind_val _ _ _ _ _ H2). reflexivity.
Qed.

Lemma reconcile_cloned id repo name tr1 e :
  Go.Split id "/"%char !! 1%nat = Some name ->
  let path := Join w (HomeDir env) name in
  os_Stat w tr1 path = StatErr e ->
  IsNotExist e = false ->
  let c := cloneCmd path ("https://github.com/" +:+ id +:+ ".git")
             (Branch repo) in
  let tr2 := tr1 ++ [EvStat path (StatErr e)] in
  let r := exec_Run w tr2 c CombinedOutput in
  RunErr r = None ->
  reconcile w env id repo tr1 =
    thenRegister w env repo (tr2 ++ [EvExec c CombinedOutput r]).
Proof.
  intros Hname path Hstat Hne c tr2 r Hrun.
  unfold reconcile. rewrite Hname. fold path.
  assert (Stat w path tr1 = (Val (StatErr e), tr2)) as H1.
  { unfold Stat. rewrite Hstat. reflexivity. }
  rewrite (bind_val _ _ _ _ _ H1). rewrite Hne.
  match goal with
  | |- bind ?m ?k ?tr = _ =>
      assert (m tr = (Val true, tr2 ++ [EvExec c CombinedOutput r])) as H2
  end.
  { unfold clone, Run, Println, Printf. unfold bind, ret. cbn.
    fold c. fold tr2. fold r. rewrite Hrun. reflexivity. }
  rewrite (bind_val _ _ _ _ _ H2). reflexivity.
Qed.

End MoreReconciliation.

(** ** What a computation adds to the history *)

Lemma emits_ret {A} P (a : A) : emits P (ret a).
Proof. intros tr. exists []. cbn. rewrite app_nil_r. auto. Qed.

Lemma emits_panic {A} P msg : emits P (@panic A msg).
Proof. intros tr. exists []. cbn. rewrite app_nil_r. auto. Qed.

Lemma emits_read {A} P (f : Trace -> A) :
  emits P (fun tr => (Val (f tr), tr)).
Proof. intros tr. exists []. cbn. rewrite app_nil_r. auto. Qed.

Lemma emits_bind {A B} P (m : M A) (k : A -> M B) :
  emits P m -> (forall a, emits P (k a)) -> emits P (bind m k).
Proof.
  intros Hm Hk tr. unfold bind.
  destruct (Hm tr) as (new & Hnew & HP).
  destruct (m tr) as [[a|msg] tr']; cbn in *; subst tr'.
  - destruct (Hk a (tr ++ new)) as (new' & Hnew' & HP').
    exists (new ++ new'). rewrite Hnew', app_assoc. split; [reflexivity|].
    apply Forall_app; auto.
  - exists new. auto.
Qed.

Lemma emits_log {A} (P : Event -> Prop) (f : Trace -> A)
    (e : Trace -> Event) :
  (forall tr, P (e tr)) ->
  emits P (fun tr => (Val (f tr), tr ++ [e tr])).
Proof. intros HP tr. exists [e tr]. cbn. auto. Qed.

Lemma emits_extends {A} P (m : M A) : emits P m -> extends m.
Proof. intros H tr. destruct (H tr) as (new & Hnew & _). eauto. Qed.

Section Emits.

Variable w : World.
Variable env : Env.
Variable P : Event -> Prop.

Lemma emits_Stat path : (forall r, P (EvStat path r)) -> emits P (Stat w path).
Proof.
  intros HP. apply (emits_log P (fun tr => os_Stat w tr path)
                      (fun tr => EvStat path (os_Stat w tr path))). auto.
Qed.

Lemma emits_Run c io : (forall r, P (EvExec c io r)) -> emits P (Run w c io).
Proof.
  intros HP. apply (emits_log P (fun tr => exec_Run w tr c io)
                      (fun tr => EvExec c io (exec_Run w tr c io))). auto.
Qed.

Lemma emits_Do req : (forall r, P (EvHttp req r)) -> emits P (Do w req).
Proof.
  intros HP. apply (emits_log P (fun tr => http_Do w tr req)
                      (fun tr => EvHttp req (http_Do w tr req))). auto.
Qed.

Lemma emits_Printf s : P (EvPrint s) -> emits P (Printf s).
Proof.
  intros HP. apply (emits_log P (fun _ => tt) (fun _ => EvPrint s)). auto.
Qed.

Lemma emits_Println s : P (printed s) -> emits P (Println s).
Proof. apply emits_Printf. Qed.

Lemma emits_alreadyRegistered hooks url :
  emits P (alreadyRegistered hooks url).
Proof.
  induction hooks as [|hook hooks IH]; cbn; [apply emits_ret|].
  apply emits_bind.
  - unfold hookMatches, deref. apply emits_bind.
    + destruct (Config hook); [apply emits_ret|apply emits_panic].
    + intros c. apply emits_ret.
  - intros []; [apply emits_ret|exact IH].
Qed.

End Emits.

Ltac emits_step :=
  first
    [ apply emits_ret
    | apply emits_panic
    | apply emits_read
    | apply emits_alreadyRegistered
    | apply emits_bind
    | apply emits_Stat; intros; exact I
    | apply emits_Run; intros; exact I
    | apply emits_Do; intros; exact I
    | apply emits_Printf; exact I
    | apply emits_Println; exact I
    | assumption
    | match goal with
      | H : forall _, emits _ _ |- _ => apply H
      | |- emits _ (match ?x with _ => _ end) => destruct x
      | |- forall _, _ => intro
      end ].

Section EmitsProgram.

Variable w : World.
Variable env : Env.

Lemma emits_registerHook token repoID url :
  emits isHttp (registerHook w token repoID url).
Proof. unfold registerHook, NewRequest. repeat emits_step. Qed.

Lemma emits_reconcile id repo : emits notListen (reconcile w env id repo).
Proof.
  unfold reconcile, registerHook, NewRequest, clone, getBranch, pull.
  repeat emits_step.
Qed.

Lemma emits_reconcileAll entries :
  emits notListen (reconcileAll w env entries).
Proof.
  induction entries as [|[id repo] entries IH]; cbn; [apply emits_ret|].
  apply emits_bind; [apply emits_reconcile|].
  intros []; [exact IH|apply emits_ret].
Qed.

Lemma execs_isHttp new : Forall isHttp new -> execs new = [].
Proof.
  induction 1 as [|e new He _ IH]; [reflexivity|].
  destruct e; try contradiction. exact IH.
Qed.

End EmitsProgram.

(** ** The directory of a checkout *)

Lemma Split_no_sep s sep : contains sep s = false -> Go.Split s sep = [s].
Proof.
  induction s as [|c s IH]; cbn [Go.Split contains]; [reflexivity|].
  intros H. apply orb_false_iff in H as [Hc Hs].
  rewrite Hc, (IH Hs). reflexivity.
Qed.

Lemma Split_app s t sep :
  contains sep s = false ->
  Go.Split (s +:+ String sep t) sep = s :: Go.Split t sep.
Proof.
  induction s as [|c s IH]; simpl.
  - intros _. rewrite Ascii.eqb_refl. reflexivity.
  - intros H. apply orb_false_iff in H as [Hc Hs].
    rewrite Hc, (IH Hs). reflexivity.
Qed.

(** X5. The directory of a checkout is the part of the identifier between
    its first and its second slash: for "owner/name" it is "name", and what
    follows a second slash is dropped.  An identifier without a slash has
    no such part. *)
Theorem checkout_directory (owner name : string) :
  contains "/" owner = false ->
  contains "/" name = false ->
  Go.Split (owner +:+ "/" +:+ name) "/" !! 1%nat = Some name
  /\ (forall rest,
        Go.Split (owner +:+ "/" +:+ name +:+ "/" +:+ rest) "/" !! 1%nat
        = Some name)
  /\ Go.Split owner "/" !! 1%nat = None.
Proof.
  intros Ho Hn. split; [|split].
  - change ("/" +:+ name) with (String "/" name).
    rewrite (Split_app _ _ _ Ho), (Split_no_sep _ _ Hn). reflexivity.
  - intros rest. change ("/" +:+ name +:+ "/" +:+ rest)
      with (String "/" (name +:+ String "/" rest)).
    rewrite (Split_app _ _ _ Ho), (Split_app _ _ _ Hn). reflexivity.
  - rewrite (Split_no_sep _ _ Ho). reflexivity.
Qed.

Lemma checkout_directory_witness :
  Go.Split "mikerybka/github-sync" "/" !! 1%nat = Some "github-sync".
Proof.
  apply (checkout_directory "mikerybka" "github-sync"); reflexivity.
Defined.

(** ** More on [main] *)

Lemma Example_reaches stat run service post :
  reaches (Example.world stat run service post) Example.env []
    "a/b" (Example.repo service)
    [EvOpen "/home/u/repos.json" (inl "repos")].
Proof.
  exists "repos", {[ "a/b" := Example.repo service ]}, [], [].
  repeat split.
Qed.

(** X6. When [main] comes to a repository whose identifier has no slash,
    it panics on the index into the split identifier, before looking at
    the file system. *)
Theorem main_id_without_slash
    (w : World) (env : Env) (tr0 tr1 : Trace) (id : string) (repo : Repo) :
  reaches w env tr0 id repo tr1 ->
  contains "/" id = false ->
  main w env tr0
  = (Panic "runtime error: index out of range [1] with length 1", tr1).
Proof.
  intros Hreach Hid. eapply main_panics_when; [exact Hreach|].
  unfold reconcile. rewrite (Split_no_sep _ _ Hid). reflexivity.
Qed.

(** X7. When the path of a repository is there but is not a directory,
    [main] prints "Error: <path> is file" and returns; no command is run
    for it. *)
Theorem main_path_is_file
    (w : World) (env : Env) (tr0 tr1 : Trace) (id name : string)
    (repo : Repo) :
  reaches w env tr0 id repo tr1 ->
  Go.Split id "/"%char !! 1%nat = Some name ->
  let path := Join w (HomeDir env) name in
  os_Stat w tr1 path = StatInfo false ->
  main w env tr0 =
    (Val Returned,
     tr1 ++ [EvStat path (StatInfo false);
             printed ("Error: " +:+ path +:+ " is file")]).
Proof.
  intros Hreach Hname path Hstat. eapply main_returns_when; [exact Hreach|].
  apply reconcile_is_file; assumption.
Qed.

Lemma main_path_is_file_witness :
  main (Example.world (StatInfo false) Example.allGood (Some Example.svc)
          Example.created201) Example.env []
  = (Val Returned,
     [EvOpen "/home/u/repos.json" (inl "repos");
      EvStat "/home/u/b" (StatInfo false);
      printed "Error: /home/u/b is file"]).
Proof.
  apply (main_path_is_file
           (Example.world (StatInfo false) Example.allGood
              (Some Example.svc) Example.created201) Example.env []
           [EvOpen "/home/u/repos.json" (inl "repos")] "a/b" "b"
           (Example.repo (Some Example.svc)));
    [apply Example_reaches|reflexivity|reflexivity].
Defined.

(** X8. When the path is a directory but [git rev-parse] ends with an
    error there (it is not a git repository, say), [main] prints "Error: "
    and what git wrote to its standard error, and returns; nothing is
    pulled. *)
Theorem main_not_a_repository
    (w : World) (env : Env) (tr0 tr1 : Trace) (id name : string)
    (repo : Repo) (err : string) :
  reaches w env tr0 id repo tr1 ->
  Go.Split id "/"%char !! 1%nat = Some name ->
  let path := Join w (HomeDir env) name in
  os_Stat w tr1 path = StatInfo true ->
  let r := exec_Run w (tr1 ++ [EvStat path (StatInfo true)]) (revParse path)
             Buffers in
  RunErr r = Some err ->
  main w env tr0 =
    (Val Returned,
     tr1 ++ [EvStat path (StatInfo true);
             EvExec (revParse path) Buffers r;
             printed ("Error: " +:+ Stderr r)]).
Proof.
  intros Hreach Hname path Hstat r Hrun.
  eapply main_returns_when; [exact Hreach|].
  eapply reconcile_branch_error; eassumption.
Qed.

(** X9. When a checkout is on the configured branch and [git pull] ends
    with an error, [main] prints "Error pulling <id>: <error>: <output>",
    the output with the white space around it removed, and returns; the
    hook is not registered. *)
Theorem main_pull_failure
    (w : World) (env : Env) (tr0 tr1 : Trace) (id name : string)
    (repo : Repo) (err : string) :
  reaches w env tr0 id repo tr1 ->
  Go.Split id "/"%char !! 1%nat = Some name ->
  let path := Join w (HomeDir env) name in
  os_Stat w tr1 path = StatInfo true ->
  let tr2 := tr1 ++ [EvStat path (StatInfo true)] in
  let r := exec_Run w tr2 (revParse path) Buffers in
  RunErr r = None ->
  Go.TrimSpace (Stdout r) = Branch repo ->
  let tr3 := tr2 ++ [EvExec (revParse path) Buffers r] in
  let p := exec_Run w tr3 (gitPull path) CombinedOutput in
  RunErr p = Some err ->
  main w env tr0 =
    (Val Returned,
     tr3 ++ [EvExec (gitPull path) CombinedOutput p;
             EvPrint ("Error pulling " +:+ id +:+ ": "
                      +:+ (err +:+ ": " +:+ Go.TrimSpace (Combined p))
                      +:+ Go.nl)]).
Proof.
  intros Hreach Hname path Hstat tr2 r Hrun Hbranch tr3 p Hpull.
  eapply main_returns_when; [exact Hreach|].
  eapply reconcile_pull_failure; eassumption.
Qed.

(** X10. When [git clone] ends with an error, [main] prints
    "Error cloning <id>: git clone failed: <error>", a line feed and the
    output of git as it is, and returns; the hook is not registered. *)
Theorem main_clone_failure
    (w : World) (env : Env) (tr0 tr1 : Trace) (id name : string)
    (repo : Repo) (e : error) (err : string) :
  reaches w env tr0 id repo tr1 ->
  Go.Split id "/"%char !! 1%nat = Some name ->
  let path := Join w (HomeDir env) name in
  os_Stat w tr1 path = StatErr e ->
  IsNotExist e = false ->
  let c := cloneCmd path ("https://github.com/" +:+ id +:+ ".git")
             (Branch repo) in
  let r := exec_Run w (tr1 ++ [EvStat path (StatErr e)]) c CombinedOutput in
  RunErr r = Some err ->
  main w env tr0 =
    (Val Returned,
     tr1 ++ [EvStat path (StatErr e);
             EvExec c CombinedOutput r;
             EvPrint ("Error cloning " +:+ id +:+ ": "
                      +:+ ("git clone failed: " +:+ err +:+ Go.nl
                           +:+ Combined r)
                      +:+ Go.nl)]).
Proof.
  intros Hreach Hname path Hstat Hne c r Hrun.
  eapply main_returns_when; [exact Hreach|].
  eapply reconcile_clone_failure; eassumption.
Qed.

(** X11. A repository configured without a branch cannot be reconciled
    once its checkout is there: whatever branch git names, it differs from
    the empty configured branch, so [main] prints the wrong-branch error
    and returns. *)
Theorem main_no_branch_existing_checkout
    (w : World) (env : Env) (tr0 tr1 : Trace) (id name : string)
    (repo : Repo) :
  reaches w env tr0 id repo tr1 ->
  Go.Split id "/"%char !! 1%nat = Some name ->
  Branch repo = "" ->
  let path := Join w (HomeDir env) name in
  os_Stat w tr1 path = StatInfo true ->
  let r := exec_Run w (tr1 ++ [EvStat path (StatInfo true)]) (revParse path)
             Buffers in
  RunErr r = None ->
  Go.TrimSpace (Stdout r) <> "" ->
  main w env tr0 =
    (Val Returned,
     tr1 ++ [EvStat path (StatInfo true);
             EvExec (revParse path) Buffers r;
             printed ("Error: " +:+ ID repo
                      +:+ " is checked out to the wrong branch")]).
Proof.
  intros Hreach Hname Hbranch path Hstat r Hrun Hout.
  eapply main_returns_when; [exact Hreach|].
  apply reconcile_wrong_branch; try assumption.
  rewrite Hbranch. exact Hout.
Qed.

(** X12. When the configuration cannot be opened or decoded, [main]
    prints "Error: " and the error and returns, having done nothing
    else. *)
Theorem main_unreadable_config
    (w : World) (env : Env) (tr0 : Trace) (err : string) :
  let opened := os_Open w tr0 (configPath w env) in
  match opened with
  | inl contents => json_Repos w contents
  | inr e => inr e
  end = inr err ->
  main w env tr0 =
    (Val Returned,
     tr0 ++ [EvOpen (configPath w env) opened; printed ("Error: " +:+ err)]).
Proof.
  intros opened Herr. unfold main. unfold bind at 1.
  fold (configPath w env). rewrite readConfig_eq. fold opened.
  rewrite Herr. unfold bind, Println, Printf, ret.
  rewrite <- app_assoc. reflexivity.
Qed.

Lemma Example_reaches_of opened0 id r listen stat run post :
  reaches (Example.worldOf (inl opened0) id r listen stat run post)
    Example.env [] id r [EvOpen "/home/u/repos.json" (inl opened0)].
Proof.
  exists opened0, {[ id := r ]}, [], []. repeat split.
  cbn. unfold map_to_list. rewrite map_fold_singleton. reflexivity.
Qed.

Lemma main_id_without_slash_witness :
  main (Example.worldOf (inl "repos") "github-sync"
          (Example.repo None) None (StatInfo true) Example.allGood
          Example.created201) Example.env []
  = (Panic "runtime error: index out of range [1] with length 1",
     [EvOpen "/home/u/repos.json" (inl "repos")]).
Proof.
  apply (main_id_without_slash _ _ _ _ "github-sync" (Example.repo None));
    [apply Example_reaches_of|reflexivity].
Defined.

Lemma main_not_a_repository_witness :
  main (Example.world (StatInfo true) Example.notARepository
          (Some Example.svc) Example.created201) Example.env []
  = (Val Returned,
     [EvOpen "/home/u/repos.json" (inl "repos");
      EvStat "/home/u/b" (StatInfo true);
      EvExec (revParse "/home/u/b") Buffers
        (Example.notARepository (revParse "/home/u/b"));
      printed ("Error: fatal: not a git repository" +:+ Go.nl)]).
Proof.
  apply (main_not_a_repository
           (Example.world (StatInfo true) Example.notARepository
              (Some Example.svc) Example.created201) Example.env []
           [EvOpen "/home/u/repos.json" (inl "repos")] "a/b" "b"
           (Example.repo (Some Example.svc)) "exit status 128");
    [apply Example_reaches|reflexivity|reflexivity|reflexivity].
Defined.

Lemma main_pull_failure_witness :
  fst (main (Example.world (StatInfo true) Example.pullFails
               (Some Example.svc) Example.created201) Example.env [])
  = Val Returned.
Proof.
  exact (f_equal fst (main_pull_failure
           (Example.world (StatInfo true) Example.pullFails
              (Some Example.svc) Example.created201) Example.env []
           [EvOpen "/home/u/repos.json" (inl "repos")] "a/b" "b"
           (Example.repo (Some Example.svc)) "exit status 1"
           (Example_reaches _ _ _ _) eq_refl eq_refl eq_refl eq_refl
           eq_refl)).
Defined.

Lemma main_clone_failure_witness :
  fst (main (Example.world (StatErr Example.permissionDenied)
               Example.notARepository (Some Example.svc)
               Example.created201) Example.env [])
  = Val Returned.
Proof.
  exact (f_equal fst (main_clone_failure
           (Example.world (StatErr Example.permissionDenied)
              Example.notARepository (Some Example.svc)
              Example.created201) Example.env []
           [EvOpen "/home/u/repos.json" (inl "repos")] "a/b" "b"
           (Example.repo (Some Example.svc)) Example.permissionDenied
           "exit status 128"
           (Example_reaches _ _ _ _) eq_refl eq_refl eq_refl eq_refl)).
Defined.

Lemma main_no_branch_existing_checkout_witness :
  fst (main (Example.worldOf (inl "repos") "a/b"
               {| ID := "a/b"; Branch := ""; Install := "";
                  Service := None |}
               None (StatInfo true) Example.allGood Example.created201)
         Example.env [])
  = Val Returned.
Proof.
  refine (f_equal fst (main_no_branch_existing_checkout
           (Example.worldOf (inl "repos") "a/b"
              {| ID := "a/b"; Branch := ""; Install := "";
                 Service := None |}
              None (StatInfo true) Example.allGood Example.created201)
           Example.env []
           [EvOpen "/home/u/repos.json" (inl "repos")] "a/b" "b"
           {| ID := "a/b"; Branch := ""; Install := ""; Service := None |}
           (Example_reaches_of _ _ _ _ _ _ _) eq_refl eq_refl eq_refl
           eq_refl _)).
  vm_compute. discriminate.
Defined.

Lemma main_unreadable_config_witness :
  main (Example.worldOf (inr "open /home/u/repos.json: permission denied")
          "a/b" (Example.repo None) None (StatInfo true) Example.allGood
          Example.created201) Example.env []
  = (Val Returned,
     [EvOpen "/home/u/repos.json"
        (inr "open /home/u/repos.json: permission denied");
      printed "Error: open /home/u/repos.json: permission denied"]).
Proof.
  apply (main_unreadable_config
           (Example.worldOf
              (inr "open /home/u/repos.json: permission denied")
              "a/b" (Example.repo None) None (StatInfo true)
              Example.allGood Example.created201) Example.env []
           "open /home/u/repos.json: permission denied").
  reflexivity.
Defined.

(** ** What the reconciliation of one repository runs *)

Lemma execs_app a b : execs (a ++ b) = execs a ++ execs b.
Proof. apply omap_app. Qed.

Lemma execs_httpOrPrint new : Forall httpOrPrint new -> execs new = [].
Proof.
  induction 1 as [|e new He _ IH]; [reflexivity|].
  destruct e; try contradiction; exact IH.
Qed.

Lemma succeeded_httpOrPrint new :
  Forall httpOrPrint new -> forallb succeeded new = true.
Proof.
  induction 1 as [|e new He _ IH]; [reflexivity|].
  destruct e; try contradiction; exact IH.
Qed.

Lemma emits_thenRegister w env repo :
  emits httpOrPrint (thenRegister w env repo).
Proof.
  unfold thenRegister, registerHook, NewRequest. repeat emits_step.
Qed.

(** X13. For one repository, [main] either looks at the checkout that
    is there (branch query, then pull) or clones, never both: when
    [os.Stat] answers, its commands are a prefix of rev-parse and pull and
    nothing is cloned; when [os.Stat] fails, the only command it may run is
    the clone.  The repository counts as reconciled only after a pull or a
    clone without error. *)
Theorem reconcile_commands
    (w : World) (env : Env) (id name : string) (repo : Repo)
    (tr1 new : Trace) (res : Res bool) :
  Go.Split id "/"%char !! 1%nat = Some name ->
  reconcile w env id repo tr1 = (res, tr1 ++ new) ->
  let path := Join w (HomeDir env) name in
  let c := cloneCmd path ("https://github.com/" +:+ id +:+ ".git")
             (Branch repo) in
  match os_Stat w tr1 path with
  | StatInfo _ =>
      execs new `prefix_of` [revParse path; gitPull path]
      /\ (res = Val true -> execs new = [revParse path; gitPull path])
  | StatErr _ =>
      execs new `prefix_of` [c]
      /\ (res = Val true -> execs new = [c])
  end
  /\ (res = Val true -> forallb succeeded new = true).
Proof.
  intros Hname. unfold reconcile. rewrite Hname.
  change (fun proceed : bool =>
            if proceed
            then bind (registerHook w (GITHUB_TOKEN env) (ID repo)
                         (EXTERNAL_URL env)) _
            else ret false)
    with (fun proceed : bool =>
            if proceed then thenRegister w env repo else ret false).
  unfold bind, Stat, getBranch, clone, pull, Run, Println, Printf, ret.
  cbv zeta.
  destruct (os_Stat w tr1 _) as [[]|e]; cbn;
    try destruct (IsNotExist e); cbn.
  all: run_commands w;
    try match goal with
        | |- context [String.eqb ?a ?b] => destruct (String.eqb a b); cbn
        end;
    run_commands w;
    try match goal with
        | |- context [thenRegister ?w0 ?env0 ?repo0 ?tr] =>
            destruct (emits_thenRegister w0 env0 repo0 tr)
              as (newh & Hh & HP);
            destruct (thenRegister w0 env0 repo0 tr) as [resh trh];
            cbn in Hh; subst trh
        end.
  all: rewrite <- ?app_assoc; cbn [app]; intros [= <- Hnew]; new_events;
       subst new.
  all: repeat match goal with
       | |- context [execs (?e :: ?l)] =>
           lazymatch l with
           | [] => fail
           | _ => change (execs (e :: l)) with (execs [e] ++ execs l)
           end
       end;
       try match goal with
           | HP : Forall httpOrPrint _ |- _ =>
               rewrite ?execs_app, ?(execs_httpOrPrint _ HP)
           end; cbn [execs omap app].
  all: split; [split; [eexists; reflexivity|]|];
       intros Hres; try discriminate Hres; try reflexivity.
  all: cbn; rewrite_results; cbn; apply succeeded_httpOrPrint; assumption.
Qed.

Lemma reconcile_commands_witness :
  execs (skipn 1 (snd (reconcile
                         (Example.world (StatInfo true) Example.allGood
                            (Some Example.svc) Example.created201)
                         Example.env "a/b" (Example.repo (Some Example.svc))
                         [EvOpen "/home/u/repos.json" (inl "repos")])))
  `prefix_of` [revParse "/home/u/b"; gitPull "/home/u/b"].
Proof.
  exact (proj1 (proj1 (reconcile_commands
    (Example.world (StatInfo true) Example.allGood (Some Example.svc)
       Example.created201) Example.env "a/b" "b"
    (Example.repo (Some Example.svc))
    [EvOpen "/home/u/repos.json" (inl "repos")]
    (skipn 1 (snd (reconcile
                     (Example.world (StatInfo true) Example.allGood
                        (Some Example.svc) Example.created201)
                     Example.env "a/b" (Example.repo (Some Example.svc))
                     [EvOpen "/home/u/repos.json" (inl "repos")])))
    (Val true) eq_refl eq_refl))).
Defined.

(** X14. Once every entry of the configuration is reconciled, [main]
    listens on ":" followed by the port.  It stays there; when listening
    fails (the port is taken, say) it prints "Error: " and the error and
    returns. *)
Theorem main_serves
    (w : World) (env : Env) (tr0 tr1 : Trace) (contents : string)
    (config : gmap string Repo) :
  os_Open w tr0 (configPath w env) = inl contents ->
  json_Repos w contents = inl config ->
  let trc := tr0 ++ [EvOpen (configPath w env) (inl contents)] in
  reconcileAll w env (map_range w trc config) trc = (Val true, tr1) ->
  let addr := ":" +:+ PORT env in
  main w env tr0 =
    match http_ListenAndServe w tr1 addr with
    | None => (Val Serving, tr1 ++ [EvListen addr None])
    | Some err =>
        (Val Returned,
         tr1 ++ [EvListen addr (Some err); printed ("Error: " +:+ err)])
    end.
Proof.
  intros Hopen Hjson trc Hall addr.
  rewrite (main_eq _ _ _ _ _ Hopen Hjson). cbv zeta. fold trc.
  rewrite (bind_val _ _ _ _ _ Hall).
  unfold serve, bind, ListenAndServe, Println, Printf, ret. fold addr.
  destruct (http_ListenAndServe w tr1 addr); [|reflexivity].
  rewrite <- app_assoc. reflexivity.
Qed.

(** X15. [main] listens only after every entry of the configuration has
    been reconciled, and then on ":" followed by the port: reconciliation
    itself never starts the server. *)
Theorem main_listens_only_after_all
    (w : World) (env : Env) (tr0 new : Trace) (contents : string)
    (config : gmap string Repo) (res : Res MainResult) :
  os_Open w tr0 (configPath w env) = inl contents ->
  json_Repos w contents = inl config ->
  main w env tr0 = (res, tr0 ++ new) ->
  let trc := tr0 ++ [EvOpen (configPath w env) (inl contents)] in
  (exists addr r, In (EvListen addr r) new)
  <-> fst (reconcileAll w env (map_range w trc config) trc) = Val true.
Proof.
  intros Hopen Hjson Hmain trc.
  rewrite (main_eq _ _ _ _ _ Hopen Hjson) in Hmain. cbv zeta in Hmain.
  fold trc in Hmain. unfold bind in Hmain.
  destruct (emits_reconcileAll w env (map_range w trc config) trc)
    as (newr & Hnewr & HP).
  destruct (reconcileAll w env (map_range w trc config) trc)
    as [[[]|msg] tr1]; cbn in Hnewr; subst tr1; cbn [fst].
  - split; [reflexivity|intros _].
    unfold serve, bind, ListenAndServe, Println, Printf, ret in Hmain.
    destruct (http_ListenAndServe w _ _);
      injection Hmain as _ Hnew; unfold trc in Hnew;
      rewrite <- ?app_assoc in Hnew; new_events; subst new;
      eexists _, _; apply in_or_app; right; apply in_or_app; right;
      left; reflexivity.
  - split; [|discriminate].
    intros (addr & r & Hin). unfold ret in Hmain.
    injection Hmain as _ Hnew. unfold trc in Hnew.
    rewrite <- ?app_assoc in Hnew. new_events. subst new.
    apply in_app_or in Hin as [[Hin|[]]|Hin]; [discriminate|].
    rewrite Forall_forall in HP. apply list_elem_of_In in Hin.
    destruct (HP _ Hin).
  - split; [|discriminate].
    intros (addr & r & Hin).
    injection Hmain as _ Hnew. unfold trc in Hnew.
    rewrite <- ?app_assoc in Hnew. new_events. subst new.
    apply in_app_or in Hin as [[Hin|[]]|Hin]; [discriminate|].
    rewrite Forall_forall in HP. apply list_elem_of_In in Hin.
    destruct (HP _ Hin).
Qed.

(** X16. A restart with everything in place: for a checkout that is a
    directory on the configured branch, whose pull succeeds and whose hook
    GitHub already lists, the loop body does exactly four things (stat,
    branch query, pull, list of the hooks) and goes on to the next
    repository; nothing is cloned and no hook is created. *)
Theorem reconcile_in_place
    (w : World) (env : Env) (id name : string) (repo : Repo) (tr1 : Trace)
    (res : Response) (hooks : list Hook) :
  Go.Split id "/"%char !! 1%nat = Some name ->
  let path := Join w (HomeDir env) name in
  os_Stat w tr1 path = StatInfo true ->
  let tr2 := tr1 ++ [EvStat path (StatInfo true)] in
  let r := exec_Run w tr2 (revParse path) Buffers in
  RunErr r = None ->
  Go.TrimSpace (Stdout r) = Branch repo ->
  let tr3 := tr2 ++ [EvExec (revParse path) Buffers r] in
  let p := exec_Run w tr3 (gitPull path) CombinedOutput in
  RunErr p = None ->
  let tr4 := tr3 ++ [EvExec (gitPull path) CombinedOutput p] in
  let get := listHooks (GITHUB_TOKEN env) (ID repo) in
  (forall method, http_NewRequest w method (hooksURL (ID repo)) = None) ->
  http_Do w tr4 get = inl res ->
  json_Hooks w (resp_Body res) = inl hooks ->
  Forall (fun h => Config h <> None) hooks ->
  Exists (isRegistration (EXTERNAL_URL env)) hooks ->
  reconcile w env id repo tr1 = (Val true, tr4 ++ [EvHttp get (inl res)]).
Proof.
  intros Hname path Hstat tr2 r Hrun Hbranch tr3 p Hpull tr4 get
    Hnew Hget Hdec Hcfg Hex.
  rewrite (reconcile_valid w env id repo name tr1 Hname Hstat Hrun Hbranch
             Hpull).
  fold path tr2 r tr3 p tr4. unfold thenRegister.
  rewrite (bind_val _ _ _ _ _
             (registerHook_listed w _ _ _ Hnew tr4 res hooks
                Hget Hdec Hcfg Hex)).
  reflexivity.
Qed.

Lemma main_serves_witness :
  fst (main (Example.worldOf (inl "repos") "a/b" (Example.repo None)
               (Some "listen tcp :2067: bind: address already in use")
               (StatInfo true) Example.allGood Example.created201)
         Example.env [])
  = Val Returned.
Proof.
  refine (f_equal fst (main_serves
    (Example.worldOf (inl "repos") "a/b" (Example.repo None)
       (Some "listen tcp :2067: bind: address already in use")
       (StatInfo true) Example.allGood Example.created201)
    Example.env []
    (snd (reconcileAll
            (Example.worldOf (inl "repos") "a/b" (Example.repo None)
               (Some "listen tcp :2067: bind: address already in use")
               (StatInfo true) Example.allGood Example.created201)
            Example.env [("a/b", Example.repo None)]
            [EvOpen "/home/u/repos.json" (inl "repos")]))
    "repos" {[ "a/b" := Example.repo None ]} eq_refl eq_refl _)).
  vm_compute. reflexivity.
Defined.

Lemma main_listens_only_after_all_witness :
  exists addr r,
    In (EvListen addr r)
      (snd (main (Example.world (StatInfo true) Example.allGood
                    (Some Example.svc) Example.created201) Example.env [])).
Proof.
  refine (proj2 (main_listens_only_after_all
    (Example.world (StatInfo true) Example.allGood (Some Example.svc)
       Example.created201) Example.env []
    (snd (main (Example.world (StatInfo true) Example.allGood
                  (Some Example.svc) Example.created201) Example.env []))
    "repos" {[ "a/b" := Example.repo (Some Example.svc) ]}
    (Val Serving) eq_refl eq_refl _) _).
  - vm_compute. reflexivity.
  - vm_compute. reflexivity.
Defined.

Lemma reconcile_in_place_witness :
  reconcile (Example.withGithub
               (Example.world (StatInfo true) Example.allGood
                  (Some Example.svc) Example.created201)
               Example.githubListing)
    Example.env "a/b" (Example.repo (Some Example.svc)) []
  = (Val true,
     [EvStat "/home/u/b" (StatInfo true);
      EvExec (revParse "/home/u/b") Buffers (Example.ok ("main" +:+ Go.nl));
      EvExec (gitPull "/home/u/b") CombinedOutput
        (Example.ok ("main" +:+ Go.nl));
      EvHttp (listHooks "t0ken" "a/b")
        (inl {| StatusCode := 200; resp_Body := "[web]" |})]).
Proof.
  refine (reconcile_in_place
    (Example.withGithub
       (Example.world (StatInfo true) Example.allGood (Some Example.svc)
          Example.created201) Example.githubListing)
    Example.env "a/b" "b" (Example.repo (Some Example.svc)) []
    {| StatusCode := 200; resp_Body := "[web]" |}
    [newHook (EXTERNAL_URL Example.env)]
    eq_refl eq_refl eq_refl eq_refl eq_refl _ eq_refl eq_refl _ _).
  - reflexivity.
  - repeat constructor. discriminate.
  - constructor. apply isRegistration_newHook.
Defined.

(** ** More on hook registration *)

(** X17. [registerHook] does nothing but talk to GitHub, and sends at most
    two requests: the list of the hooks of the repository and then, at
    most once, the creation of the hook, both with the token in the
    [Authorization] header.  It never changes or deletes a hook. *)
Theorem registerHook_requests
    (w : World) (ghToken repoID webhookURL : string) (tr0 new : Trace)
    (res : Res (option string)) :
  registerHook w ghToken repoID webhookURL tr0 = (res, tr0 ++ new) ->
  Forall isHttp new
  /\ requests new `prefix_of` [listHooks ghToken repoID;
                               createHook ghToken repoID webhookURL].
Proof.
  unfold registerHook, NewRequest.
  fold (hooksURL repoID). fold (listHooks ghToken repoID).
  fold (createHook ghToken repoID webhookURL).
  destruct (http_NewRequest w "GET" _).
  { unfold bind, panic. intros [= <- Hnew]. new_events. subst new.
    split; [constructor|eexists; reflexivity]. }
  unfold bind at 1. unfold ret at 1. unfold bind at 1, Do at 1.
  set (tr1 := tr0 ++ _).
  destruct (http_Do w tr0 _) as [res1|err].
  2:{ unfold tr1. intros [= <- Hnew]. new_events. subst new.
      split; [repeat constructor|eexists; reflexivity]. }
  destruct (json_Hooks w (resp_Body res1)) as [hooks|err].
  2:{ unfold tr1. intros [= <- Hnew]. new_events. subst new.
      split; [repeat constructor|eexists; reflexivity]. }
  unfold bind at 1.
  pose proof (alreadyRegistered_trace hooks webhookURL tr1) as Htr.
  destruct (alreadyRegistered hooks webhookURL tr1) as [[[]|msg] tr1'];
    cbn in Htr; subst tr1'.
  1,3: unfold tr1; intros [= <- Hnew]; new_events; subst new;
       (split; [repeat constructor|eexists; reflexivity]).
  destruct (http_NewRequest w "POST" _).
  { unfold bind, panic, tr1. intros [= <- Hnew]. new_events. subst new.
    split; [repeat constructor|eexists; reflexivity]. }
  unfold bind at 1. unfold ret at 1. unfold bind at 1, Do at 1.
  unfold tr1. rewrite <- app_assoc.
  destruct (http_Do w _ _) as [res2|err];
    [destruct (negb (StatusCode res2 =? 201))|];
    unfold ret; intros [= <- Hnew]; new_events; subst new;
    (split; [repeat constructor|exists []; reflexivity]).
Qed.

Lemma registerHook_requests_witness :
  requests (snd (registerHook
                   (Example.world (StatInfo true) Example.allGood
                      (Some Example.svc) Example.created201)
                   "t0ken" "a/b" "https://ci.example/hook" []))
  `prefix_of` [listHooks "t0ken" "a/b";
               createHook "t0ken" "a/b" "https://ci.example/hook"].
Proof.
  exact (proj2 (registerHook_requests
    (Example.world (StatInfo true) Example.allGood (Some Example.svc)
       Example.created201)
    "t0ken" "a/b" "https://ci.example/hook" []
    (snd (registerHook
            (Example.world (StatInfo true) Example.allGood
               (Some Example.svc) Example.created201)
            "t0ken" "a/b" "https://ci.example/hook" []))
    (Val None) eq_refl)).
Defined.

Lemma alreadyRegistered_first_match pre h post url tr :
  Forall (fun h => Config h <> None) pre ->
  isRegistration url h ->
  alreadyRegistered (pre ++ h :: post) url tr = (Val true, tr).
Proof.
  intros Hpre Hh. induction Hpre as [|a pre Ha _ IH]; cbn.
  - destruct Hh as (c & Hc & Hrest).
    destruct (hookMatches_spec h c url tr Hc) as (b & Hb & Hiff).
    unfold bind. rewrite Hb.
    assert (b = true) as -> by (apply Hiff; exists c; auto).
    reflexivity.
  - destruct (Config a) as [c|] eqn:Hc; [|contradiction].
    destruct (hookMatches_spec a c url tr Hc) as (b & Hb & _).
    unfold bind. rewrite Hb. destruct b; [reflexivity|exact IH].
Qed.

Section MoreRegister.

Variable w : World.
Variables ghToken repoID webhookURL : string.

Hypothesis NewRequest_ok :
  forall method, http_NewRequest w method (hooksURL repoID) = None.

Lemma registerHook_after_list tr0 res hooks :
  http_Do w tr0 (listHooks ghToken repoID) = inl res ->
  json_Hooks w (resp_Body res) = inl hooks ->
  registerHook w ghToken repoID webhookURL tr0
  = bind (alreadyRegistered hooks webhookURL)
      (fun found : bool =>
         if found then ret None
         else bind (NewRequest w "POST" (hooksURL repoID))
                (fun _ =>
                   bind (Do w (createHook ghToken repoID webhookURL))
                     (fun res =>
                        match res with
                        | inr err => ret (Some err)
                        | inl res =>
                            if negb (StatusCode res =? 201)
                            then ret (Some (Go.itoa (StatusCode res) +:+ ": "
                                            +:+ Go.TrimSpace (resp_Body res)))
                            else ret None
                        end)))
      (tr0 ++ [EvHttp (listHooks ghToken repoID) (inl res)]).
Proof.
  intros Hget Hdec.
  unfold registerHook, NewRequest at 1. fold (hooksURL repoID).
  rewrite NewRequest_ok. fold (listHooks ghToken repoID).
  unfold bind at 1. unfold ret at 1. unfold bind at 1, Do at 1.
  rewrite Hget, Hdec. reflexivity.
Qed.

End MoreRegister.

(** X18. An error of the transport is returned as it is, with no second
    attempt: from the list request, before anything is created; from the
    create request, after the list showed no registration. *)
Theorem registerHook_transport_errors
    (w : World) (ghToken repoID webhookURL : string) (tr0 : Trace) :
  (forall method, http_NewRequest w method (hooksURL repoID) = None) ->
  let get := listHooks ghToken repoID in
  let post := createHook ghToken repoID webhookURL in
  (forall err,
     http_Do w tr0 get = inr err ->
     registerHook w ghToken repoID webhookURL tr0
     = (Val (Some err), tr0 ++ [EvHttp get (inr err)]))
  /\ (forall res hooks err,
        http_Do w tr0 get = inl res ->
        json_Hooks w (resp_Body res) = inl hooks ->
        Forall (fun h => Config h <> None) hooks ->
        ~ Exists (isRegistration webhookURL) hooks ->
        http_Do w (tr0 ++ [EvHttp get (inl res)]) post = inr err ->
        registerHook w ghToken repoID webhookURL tr0
        = (Val (Some err),
           tr0 ++ [EvHttp get (inl res); EvHttp post (inr err)])).
Proof.
  intros Hnew get post. split.
  - intros err Hget.
    unfold registerHook, NewRequest. fold (hooksURL repoID).
    rewrite Hnew. fold (listHooks ghToken repoID). fold get.
    unfold bind at 1. unfold ret at 1. unfold bind at 1, Do at 1.
    rewrite Hget. reflexivity.
  - intros res hooks err Hget Hdec Hcfg Hex Hpost.
    rewrite (registerHook_after_list w _ _ _ Hnew _ _ _ Hget Hdec).
    fold get post.
    destruct (alreadyRegistered_spec hooks webhookURL
                (tr0 ++ [EvHttp get (inl res)]) Hcfg) as (b & Hb & Hiff).
    rewrite (bind_val _ _ _ _ _ Hb).
    destruct b; [destruct Hex; apply Hiff; reflexivity|].
    unfold NewRequest. rewrite Hnew.
    unfold bind at 1. unfold ret at 1. unfold bind at 1, Do at 1.
    rewrite Hpost. unfold ret. rewrite <- app_assoc. reflexivity.
Qed.

Lemma registerHook_transport_errors_witness :
  registerHook (Example.withGithub
                  (Example.world (StatInfo true) Example.allGood
                     (Some Example.svc) Example.created201)
                  Example.githubDown)
    "t0ken" "a/b" "https://ci.example/hook" []
  = (Val (Some "dial tcp: lookup api.github.com: no such host"),
     [EvHttp (listHooks "t0ken" "a/b")
        (inr "dial tcp: lookup api.github.com: no such host")]).
Proof.
  refine (proj1 (registerHook_transport_errors
    (Example.withGithub
       (Example.world (StatInfo true) Example.allGood (Some Example.svc)
          Example.created201) Example.githubDown)
    "t0ken" "a/b" "https://ci.example/hook" [] _) _ eq_refl).
  reflexivity.
Defined.

(** X19. The status of the answer to the list request is not looked at:
    whatever it is, when the body does not decode as a list of hooks (the
    error object of a 401 or 404, say) [registerHook] panics with the
    decoder's error, and nothing is created. *)
Theorem registerHook_undecodable_list
    (w : World) (ghToken repoID webhookURL : string) (tr0 : Trace)
    (res : Response) (err : string) :
  (forall method, http_NewRequest w method (hooksURL repoID) = None) ->
  http_Do w tr0 (listHooks ghToken repoID) = inl res ->
  json_Hooks w (resp_Body res) = inr err ->
  registerHook w ghToken repoID webhookURL tr0
  = (Panic err, tr0 ++ [EvHttp (listHooks ghToken repoID) (inl res)]).
Proof.
  intros Hnew Hget Hdec.
  unfold registerHook, NewRequest. fold (hooksURL repoID).
  rewrite Hnew. fold (listHooks ghToken repoID).
  unfold bind at 1. unfold ret at 1. unfold bind at 1, Do at 1.
  rewrite Hget, Hdec. reflexivity.
Qed.

Lemma registerHook_undecodable_list_witness :
  fst (registerHook (Example.withGithub
                       (Example.world (StatInfo true) Example.allGood
                          (Some Example.svc) Example.created201)
                       Example.githubUnauthorized)
         "t0ken" "a/b" "https://ci.example/hook" [])
  = Panic "json: cannot unmarshal object into Go value of type []main.Hook".
Proof.
  refine (f_equal fst (registerHook_undecodable_list
    (Example.withGithub
       (Example.world (StatInfo true) Example.allGood (Some Example.svc)
          Example.created201) Example.githubUnauthorized)
    "t0ken" "a/b" "https://ci.example/hook" []
    {| StatusCode := 401; resp_Body := "{message: Bad credentials}" |}
    "json: cannot unmarshal object into Go value of type []main.Hook"
    _ eq_refl eq_refl)).
  reflexivity.
Defined.

(** X20. The first registration in the list decides: once a hook with
    the configured URL, active, subscribed to "push" and of content type
    "json" is met, [registerHook] returns nil after its one request,
    whatever follows it in the list, a hook without [config] included. *)
Theorem registerHook_first_match
    (w : World) (ghToken repoID webhookURL : string) (tr0 : Trace)
    (res : Response) (pre post : list Hook) (h : Hook) :
  (forall method, http_NewRequest w method (hooksURL repoID) = None) ->
  http_Do w tr0 (listHooks ghToken repoID) = inl res ->
  json_Hooks w (resp_Body res) = inl (pre ++ h :: post) ->
  Forall (fun h => Config h <> None) pre ->
  isRegistration webhookURL h ->
  registerHook w ghToken repoID webhookURL tr0
  = (Val None, tr0 ++ [EvHttp (listHooks ghToken repoID) (inl res)]).
Proof.
  intros Hnew Hget Hdec Hpre Hh.
  rewrite (registerHook_after_list w _ _ _ Hnew _ _ _ Hget Hdec).
  rewrite (bind_val _ _ _ _ _
             (alreadyRegistered_first_match pre h post webhookURL _ Hpre Hh)).
  reflexivity.
Qed.

Lemma registerHook_first_match_witness :
  registerHook (Example.withDecoder
                  (Example.withGithub
                     (Example.world (StatInfo true) Example.allGood
                        (Some Example.svc) Example.created201)
                     Example.githubListingTwo)
                  Example.decodeHooksTwo)
    "t0ken" "a/b" "https://ci.example/hook" []
  = (Val None,
     [EvHttp (listHooks "t0ken" "a/b")
        (inl {| StatusCode := 200; resp_Body := "[web,bare]" |})]).
Proof.
  refine (registerHook_first_match
    (Example.withDecoder
       (Example.withGithub
          (Example.world (StatInfo true) Example.allGood (Some Example.svc)
             Example.created201) Example.githubListingTwo)
       Example.decodeHooksTwo)
    "t0ken" "a/b" "https://ci.example/hook" []
    {| StatusCode := 200; resp_Body := "[web,bare]" |}
    [] [Example.bareHook] (newHook "https://ci.example/hook")
    _ eq_refl eq_refl _ _).
  - reflexivity.
  - constructor.
  - apply isRegistration_newHook.
Defined.

(** X21. [includes] is membership: it answers true exactly when the
    string is one of the elements of the list, compared byte for byte. *)
Theorem includes_elem_of (l : list string) (s : string) :
  includes l s = true <-> s ∈ l.
Proof. rewrite includes_In. symmetry. apply list_elem_of_In. Qed.

(** X22. What the handler refuses before doing anything: a body that does
    not decode is answered 400 with the decoder's error, and not even the
    configuration is read; a configuration that cannot be opened or decoded
    is answered 500 with that error, and no command is run. *)
Theorem webhookHandler_refusals
    (w : World) (env : Env) (body : string) (tr0 : Trace) :
  (forall err,
     json_WebhookRequest w body = inr err ->
     webhookHandler w env body tr0 = (Val (http_Error err 400), tr0))
  /\ (forall req err,
        json_WebhookRequest w body = inl req ->
        let opened := os_Open w tr0 (configPath w env) in
        match opened with
        | inl contents => json_Repos w contents
        | inr e => inr e
        end = inr err ->
        webhookHandler w env body tr0
        = (Val (http_Error err 500),
           tr0 ++ [EvOpen (configPath w env) opened])).
Proof.
  split.
  - intros err Hdec. unfold webhookHandler, bind, Now, ret.
    rewrite Hdec. reflexivity.
  - intros req err Hdec opened Herr.
    unfold webhookHandler, bind, Now, ret. rewrite Hdec.
    fold (configPath w env). rewrite readConfig_eq. fold opened.
    rewrite Herr. reflexivity.
Qed.

Lemma webhookHandler_refusals_witness :
  webhookHandler (Example.world (StatInfo true) Example.allGood
                    (Some Example.svc) Example.created201)
    Example.env "not json" []
  = (Val (http_Error "invalid character in request body" 400), []).
Proof.
  exact (proj1 (webhookHandler_refusals
    (Example.world (StatInfo true) Example.allGood (Some Example.svc)
       Example.created201) Example.env "not json" [])
    "invalid character in request body" eq_refl).
Defined.
